(** * Components V2 layout nodes: validation and serialization

    A shallow embedding of [discord/components_v2.py] (node classes, their
    constructors and their [to_dict] serializers) and of the payload type
    declarations of [discord/types/components.py].

    Conventions of the embedding.
    - A Python object is a value of [PyObj]; its class is [class_of].
      [isinstance] is class membership (no class of the module is
      subclassed).
    - Arguments carry their declared types: [str] is [string], [int] is [Z],
      [bool] is [bool], [Optional[T]] is [option T]; a list argument is a
      list of arbitrary objects, since Python does not check element types.
    - A call either returns a value or raises: [result].
    - A payload is a Python [dict] with [str] keys, kept as an association
      list in insertion order.
    - A name is looked up when the expression that uses it is evaluated.
      The module uses two names it binds nowhere, [ActionRow] (in
      [Container.__init__]) and [dataclass] (the decorator of
      [MediaGalleryItem]): evaluating either raises [NameError]. *)

From Stdlib Require Import ZArith List String Ascii Bool Lia DecimalString.
Import ListNotations.
Local Open Scope string_scope.
Local Open Scope Z_scope.
Set Warnings "-register-all".

(** ** JSON values and Python dicts *)

Inductive json : Type :=
| JNull
| JBool (b : bool)
| JInt (z : Z)
| JStr (s : string)
| JArr (elems : list json)
| JObj (fields : list (string * json)).

Definition dict : Type := list (string * json).

(** [d[k]] lookup; [None] when the key is absent. *)
Fixpoint dict_get (d : dict) (k : string) : option json :=
  match d with
  | [] => None
  | (k', v) :: d' => if String.eqb k k' then Some v else dict_get d' k
  end.

(** [d[k] = v]: an existing key keeps its position, a new key is appended. *)
Fixpoint dict_set (d : dict) (k : string) (v : json) : dict :=
  match d with
  | [] => [(k, v)]
  | (k', v') :: d' =>
      if String.eqb k k' then (k', v) :: d' else (k', v') :: dict_set d' k v
  end.

Definition keys (d : dict) : list string := map fst d.

Definition has_key (d : dict) (k : string) : bool :=
  match dict_get d k with Some _ => true | None => false end.

(** ** Exceptions and results *)

Inductive exn : Type :=
| ValueError (msg : string)
| TypeError (msg : string)
| AttributeError (msg : string)
| NameError (msg : string).

Inductive result (A : Type) : Type :=
| Ok (a : A)
| Raise (e : exn).
Arguments Ok {A} a.
Arguments Raise {A} e.

Definition bind {A B : Type} (r : result A) (k : A -> result B) : result B :=
  match r with
  | Ok a => k a
  | Raise e => Raise e
  end.

Notation "x <- r ;; k" := (bind r (fun x => k))
  (at level 61, r at next level, right associativity).

(** A list comprehension whose element expression may raise: elements are
    evaluated left to right and the first exception escapes. *)
Fixpoint collect {A : Type} (rs : list (result A)) : result (list A) :=
  match rs with
  | [] => Ok []
  | r :: rs' => a <- r ;; l <- collect rs' ;; Ok (a :: l)
  end.

(** ** Objects *)

Inductive PyClass : Type :=
| cls_ActionRow
| cls_Button
| cls_Section
| cls_TextDisplay
| cls_Container
| cls_Thumbnail
| cls_MediaGalleryItem
| cls_MediaGallery
| cls_File
| cls_Separator
| cls_other.

Definition PyClass_eqb (a b : PyClass) : bool :=
  match a, b with
  | cls_ActionRow, cls_ActionRow
  | cls_Button, cls_Button
  | cls_Section, cls_Section
  | cls_TextDisplay, cls_TextDisplay
  | cls_Container, cls_Container
  | cls_Thumbnail, cls_Thumbnail
  | cls_MediaGalleryItem, cls_MediaGalleryItem
  | cls_MediaGallery, cls_MediaGallery
  | cls_File, cls_File
  | cls_Separator, cls_Separator
  | cls_other, cls_other => true
  | _, _ => false
  end.

(** Instances, one constructor per class, with the attributes of
    [__slots__] (the dataclass fields for [MediaGalleryItem]).

    Modelled from the spec: [Button] (type 2) and [ActionRow] (type 1) are
    defined in [discord/components.py], which is not part of the sources;
    an instance is represented by the payload its own [to_dict] returns.
    [obj_other] stands for an object of any other class (an [int], a [str],
    a [dict], ...): it has no [to_dict]. *)
Inductive PyObj : Type :=
| obj_Section (components : list PyObj) (accessory : option PyObj)
              (id : option Z)
| obj_TextDisplay (content : string) (id : option Z)
| obj_Container (components : list PyObj) (accent_color : option Z)
                (spoiler : bool) (id : option Z)
| obj_Thumbnail (media_url : string) (description : option string)
                (spoiler : bool) (id : option Z)
| obj_MediaGalleryItem (media_url : string) (description : option string)
                       (spoiler : bool)
| obj_MediaGallery (items : list PyObj) (id : option Z)
| obj_File (filename : string) (spoiler : bool) (id : option Z)
| obj_Separator (divider : bool) (spacing : Z) (id : option Z)
| obj_Button (payload : dict)
| obj_ActionRow (payload : dict)
| obj_other (repr : string).

Definition class_of (o : PyObj) : PyClass :=
  match o with
  | obj_Section _ _ _ => cls_Section
  | obj_TextDisplay _ _ => cls_TextDisplay
  | obj_Container _ _ _ _ => cls_Container
  | obj_Thumbnail _ _ _ _ => cls_Thumbnail
  | obj_MediaGalleryItem _ _ _ => cls_MediaGalleryItem
  | obj_MediaGallery _ _ => cls_MediaGallery
  | obj_File _ _ _ => cls_File
  | obj_Separator _ _ _ => cls_Separator
  | obj_Button _ => cls_Button
  | obj_ActionRow _ => cls_ActionRow
  | obj_other _ => cls_other
  end.

(** [isinstance(o, (C1, ..., Cn))]. *)
Definition isinstance (o : PyObj) (classes : list PyClass) : bool :=
  existsb (PyClass_eqb (class_of o)) classes.

(** Modelled from the spec: the members of [ComponentType] used by the
    module live in [discord/enums.py], which is not part of the sources;
    their values are the spec's type tags, which are also the [Literal]
    tags of the payload declarations in [discord/types/components.py]. *)
Inductive ComponentType : Type :=
| section
| text_display
| thumbnail
| media_gallery
| file
| separator
| container.

Definition value (t : ComponentType) : Z :=
  match t with
  | section => 9
  | text_display => 10
  | thumbnail => 11
  | media_gallery => 12
  | file => 13
  | separator => 14
  | container => 17
  end.

(** [SeparatorSpacing] *)
Definition SMALL : Z := 1.
Definition LARGE : Z := 2.

(** ** Constructors ([__init__])

    Each constructor runs its checks in the order of the source and returns
    the instance only when none of them raised. *)

(** [len(l) > n] *)
Definition len_gt (l : list PyObj) (n : nat) : bool := Nat.ltb n (List.length l).

(** [not l] for a list: true exactly when it is empty. *)
Definition is_empty (l : list PyObj) : bool :=
  match l with [] => true | _ :: _ => false end.

Definition Section_init (components : list PyObj) (accessory : option PyObj)
    (id : option Z) : result PyObj :=
  if is_empty components then
    Raise (ValueError "Section must contain at least one text component")
  else if len_gt components 3 then
    Raise (ValueError "Section can only contain up to 3 text components")
  else if negb (forallb (fun comp => isinstance comp [cls_TextDisplay])
                        components) then
    Raise (TypeError "All components must be TextDisplay instances")
  else if match accessory with
          | Some a => negb (isinstance a [cls_Button; cls_Thumbnail])
          | None => false
          end then
    Raise (TypeError "Accessory must be either a Button or Thumbnail instance")
  else Ok (obj_Section components accessory id).

Definition TextDisplay_init (content : string) (id : option Z)
    : result PyObj :=
  Ok (obj_TextDisplay content id).

(** The module imports [Component] and [Button] only: the global name
    [ActionRow] is unbound when [Container.__init__] evaluates it. *)
Definition ActionRow : result PyClass :=
  Raise (NameError "name 'ActionRow' is not defined").

(** [(ActionRow, TextDisplay, Section, MediaGallery, Separator, File)]: the
    elements of the tuple are evaluated left to right. *)
Definition valid_types : result (list PyClass) :=
  c <- ActionRow ;;
  Ok [c; cls_TextDisplay; cls_Section; cls_MediaGallery; cls_Separator;
      cls_File].

Definition Container_init (components : list PyObj) (accent_color : option Z)
    (spoiler : bool) (id : option Z) : result PyObj :=
  if is_empty components then
    Raise (ValueError "Container must contain at least one component")
  else
  valid_types <- valid_types ;;
  if negb (forallb (fun comp => isinstance comp valid_types)
                        components) then
    Raise (TypeError "All components must be one of: ActionRow, TextDisplay, Section, MediaGallery, Separator, or File")
  else if match accent_color with
          | Some c => negb ((0 <=? c) && (c <=? 0xFFFFFF))
          | None => false
          end then
    Raise (ValueError "accent_color must be between 0x000000 and 0xFFFFFF")
  else Ok (obj_Container components accent_color spoiler id).

Definition Thumbnail_init (media_url : string) (description : option string)
    (spoiler : bool) (id : option Z) : result PyObj :=
  Ok (obj_Thumbnail media_url description spoiler id).

(** The module never imports [dataclass]: the decorator expression of the
    class statement of [MediaGalleryItem] raises [NameError], so the class,
    and the [__init__] the decorator would generate, is never defined. *)
Definition dataclass : result unit :=
  Raise (NameError "name 'dataclass' is not defined").

(** [MediaGalleryItem(media_url, description, spoiler)]: the constructor the
    decorator would have generated stores the three fields. *)
Definition MediaGalleryItem_init (media_url : string)
    (description : option string) (spoiler : bool) : result PyObj :=
  _ <- dataclass ;;
  Ok (obj_MediaGalleryItem media_url description spoiler).

Definition MediaGallery_init (items : list PyObj) (id : option Z)
    : result PyObj :=
  if is_empty items then
    Raise (ValueError "MediaGallery must contain at least one item")
  else if len_gt items 10 then
    Raise (ValueError "MediaGallery can only contain up to 10 items")
  else if negb (forallb (fun item => isinstance item [cls_MediaGalleryItem])
                        items) then
    Raise (TypeError "All items must be MediaGalleryItem instances")
  else Ok (obj_MediaGallery items id).

Definition File_init (filename : string) (spoiler : bool) (id : option Z)
    : result PyObj :=
  Ok (obj_File filename spoiler id).

(** [spacing not in (SeparatorSpacing.SMALL, SeparatorSpacing.LARGE)] *)
Definition Separator_init (divider : bool) (spacing : Z) (id : option Z)
    : result PyObj :=
  if negb ((spacing =? SMALL) || (spacing =? LARGE)) then
    Raise (ValueError "spacing must be either SeparatorSpacing.SMALL or SeparatorSpacing.LARGE")
  else Ok (obj_Separator divider spacing id).

(** ** Serializers ([to_dict]) *)

(** [if field is not None: payload[key] = conv(field)] *)
Definition set_if_some {A : Type} (payload : dict) (key : string)
    (conv : A -> json) (field : option A) : dict :=
  match field with
  | Some a => dict_set payload key (conv a)
  | None => payload
  end.

(** [if flag: payload[key] = v] *)
Definition set_if (payload : dict) (flag : bool) (key : string) (v : json)
    : dict :=
  if flag then dict_set payload key v else payload.

Definition TextDisplay_to_dict (content : string) (id : option Z) : dict :=
  let payload := [("type", JInt (value text_display));
                  ("content", JStr content)] in
  set_if_some payload "id" JInt id.

Definition Thumbnail_to_dict (media_url : string)
    (description : option string) (spoiler : bool) (id : option Z) : dict :=
  let payload := [("type", JInt (value thumbnail));
                  ("media", JObj [("url", JStr media_url)])] in
  let payload := set_if_some payload "description" JStr description in
  let payload := set_if payload spoiler "spoiler" (JBool true) in
  set_if_some payload "id" JInt id.

Definition MediaGalleryItem_to_dict (media_url : string)
    (description : option string) (spoiler : bool) : dict :=
  let payload := [("media", JObj [("url", JStr media_url)])] in
  let payload := set_if_some payload "description" JStr description in
  set_if payload spoiler "spoiler" (JBool true).

Definition File_to_dict (filename : string) (spoiler : bool)
    (id : option Z) : dict :=
  let payload := [("type", JInt (value file));
                  ("file", JObj [("url", JStr ("attachment://" ++ filename))])]
  in
  let payload := set_if payload spoiler "spoiler" (JBool true) in
  set_if_some payload "id" JInt id.

Definition Separator_to_dict (divider : bool) (spacing : Z)
    (id : option Z) : dict :=
  let payload := [("type", JInt (value separator))] in
  let payload := set_if payload (negb divider) "divider" (JBool false) in
  let payload :=
    set_if payload (negb (spacing =? SMALL)) "spacing" (JInt spacing) in
  set_if_some payload "id" JInt id.

(** The composite serializers take the already serialized children; the
    dynamic dispatch [component.to_dict()] is [to_dict] below. *)
Definition Section_payload (components : list dict)
    (accessory : option dict) (id : option Z) : dict :=
  let payload := [("type", JInt (value section));
                  ("components", JArr (map JObj components))] in
  let payload := set_if_some payload "accessory" JObj accessory in
  set_if_some payload "id" JInt id.

Definition Container_payload (components : list dict)
    (accent_color : option Z) (spoiler : bool) (id : option Z) : dict :=
  let payload := [("type", JInt (value container));
                  ("components", JArr (map JObj components))] in
  let payload := set_if_some payload "accent_color" JInt accent_color in
  let payload := set_if payload spoiler "spoiler" (JBool true) in
  set_if_some payload "id" JInt id.

Definition MediaGallery_payload (items : list dict) (id : option Z) : dict :=
  let payload := [("type", JInt (value media_gallery));
                  ("items", JArr (map JObj items))] in
  set_if_some payload "id" JInt id.

(** [o.to_dict()]: method lookup on the class of [o], then the body of the
    method found. *)
Fixpoint to_dict (o : PyObj) : result dict :=
  match o with
  | obj_Section components accessory id =>
      cs <- collect (map to_dict components) ;;
      a <- match accessory with
           | Some acc => d <- to_dict acc ;; Ok (Some d)
           | None => Ok None
           end ;;
      Ok (Section_payload cs a id)
  | obj_TextDisplay content id => Ok (TextDisplay_to_dict content id)
  | obj_Container components accent_color spoiler id =>
      cs <- collect (map to_dict components) ;;
      Ok (Container_payload cs accent_color spoiler id)
  | obj_Thumbnail media_url description spoiler id =>
      Ok (Thumbnail_to_dict media_url description spoiler id)
  | obj_MediaGalleryItem media_url description spoiler =>
      Ok (MediaGalleryItem_to_dict media_url description spoiler)
  | obj_MediaGallery items id =>
      its <- collect (map to_dict items) ;;
      Ok (MediaGallery_payload its id)
  | obj_File filename spoiler id => Ok (File_to_dict filename spoiler id)
  | obj_Separator divider spacing id =>
      Ok (Separator_to_dict divider spacing id)
  | obj_Button payload => Ok payload
  | obj_ActionRow payload => Ok payload
  | obj_other _ => Raise (AttributeError "object has no attribute 'to_dict'")
  end.

(** ** Constructed trees

    [built o]: the object [o] exists in a program that makes instances of
    the module's classes through their constructors only: it is the result
    of a constructor call that returned, on arguments that were built the
    same way.  Instances of the two external classes come from their own
    constructors, and any object of another class may be passed around. *)
Inductive built : PyObj -> Prop :=
| built_Section components accessory id o :
    Forall built components ->
    (forall a, accessory = Some a -> built a) ->
    Section_init components accessory id = Ok o -> built o
| built_TextDisplay content id o :
    TextDisplay_init content id = Ok o -> built o
| built_Container components accent_color spoiler id o :
    Forall built components ->
    Container_init components accent_color spoiler id = Ok o -> built o
| built_Thumbnail media_url description spoiler id o :
    Thumbnail_init media_url description spoiler id = Ok o -> built o
| built_MediaGalleryItem media_url description spoiler o :
    MediaGalleryItem_init media_url description spoiler = Ok o -> built o
| built_MediaGallery items id o :
    Forall built items ->
    MediaGallery_init items id = Ok o -> built o
| built_File filename spoiler id o :
    File_init filename spoiler id = Ok o -> built o
| built_Separator divider spacing id o :
    Separator_init divider spacing id = Ok o -> built o
| built_Button payload : built (obj_Button payload)
| built_ActionRow payload : built (obj_ActionRow payload)
| built_other repr : built (obj_other repr).

(** The object answers [to_dict()]: it is an instance of one of the
    module's classes or of the two external component classes. *)
Definition has_to_dict (o : PyObj) : bool :=
  match class_of o with
  | cls_other => false
  | _ => true
  end.

Definition is_ok {A : Type} (r : result A) : bool :=
  match r with Ok _ => true | Raise _ => false end.

(** The executable reading of [built]: every instance of a validating
    class in the tree passes the checks of its constructor on the
    attributes it holds. *)
Fixpoint constructed (o : PyObj) : bool :=
  match o with
  | obj_Section c a i =>
      forallb constructed c &&
      match a with Some x => constructed x | None => true end &&
      is_ok (Section_init c a i)
  | obj_Container c ac sp i =>
      forallb constructed c && is_ok (Container_init c ac sp i)
  | obj_MediaGallery its i =>
      forallb constructed its && is_ok (MediaGallery_init its i)
  | obj_Separator d s i => is_ok (Separator_init d s i)
  | obj_MediaGalleryItem u d sp => is_ok (MediaGalleryItem_init u d sp)
  | _ => true
  end.

(** Structural induction on objects that reaches the children held in
    lists and in the optional accessory. *)
Definition PyObj_tree_ind (P : PyObj -> Prop)
    (HSection : forall components accessory id,
        Forall P components ->
        (forall a, accessory = Some a -> P a) ->
        P (obj_Section components accessory id))
    (HTextDisplay : forall content id, P (obj_TextDisplay content id))
    (HContainer : forall components accent_color spoiler id,
        Forall P components ->
        P (obj_Container components accent_color spoiler id))
    (HThumbnail : forall media_url description spoiler id,
        P (obj_Thumbnail media_url description spoiler id))
    (HItem : forall media_url description spoiler,
        P (obj_MediaGalleryItem media_url description spoiler))
    (HMediaGallery : forall items id,
        Forall P items -> P (obj_MediaGallery items id))
    (HFile : forall filename spoiler id, P (obj_File filename spoiler id))
    (HSeparator : forall divider spacing id,
        P (obj_Separator divider spacing id))
    (HButton : forall payload, P (obj_Button payload))
    (HActionRow : forall payload, P (obj_ActionRow payload))
    (Hother : forall repr, P (obj_other repr))
    : forall o, P o :=
  fix go (o : PyObj) : P o :=
    let go_list :=
      fix go_list (l : list PyObj) : Forall P l :=
        match l with
        | [] => Forall_nil P
        | x :: l' => Forall_cons x (go x) (go_list l')
        end in
    match o with
    | obj_Section components accessory id =>
        HSection components accessory id (go_list components)
          (match accessory as acc
                 return forall a, acc = Some a -> P a with
           | Some x => fun a (E : Some x = Some a) =>
               match E in _ = s
                     return match s with Some y => P y | None => True end
               with eq_refl => go x end
           | None => fun a (E : None = Some a) =>
               match E in _ = s
                     return match s with Some y => P y | None => True end
               with eq_refl => I end
           end)
    | obj_TextDisplay content id => HTextDisplay content id
    | obj_Container components accent_color spoiler id =>
        HContainer components accent_color spoiler id (go_list components)
    | obj_Thumbnail media_url description spoiler id =>
        HThumbnail media_url description spoiler id
    | obj_MediaGalleryItem media_url description spoiler =>
        HItem media_url description spoiler
    | obj_MediaGallery items id => HMediaGallery items id (go_list items)
    | obj_File filename spoiler id => HFile filename spoiler id
    | obj_Separator divider spacing id => HSeparator divider spacing id
    | obj_Button payload => HButton payload
    | obj_ActionRow payload => HActionRow payload
    | obj_other repr => Hother repr
    end.

(** ** Error taxonomy

    The checks of the module raise the built-in [ValueError] and
    [TypeError].  The
    taxonomy [ArityError] / [TypeMismatchError] / [RangeError] is read onto
    them by raise site: every [TypeError] comes from an [isinstance] check;
    a [ValueError] comes from a count check or from a value check, and only
    its message tells which.  A [NameError] or an [AttributeError] is none
    of the three. *)
Inductive ValidationError : Type :=
| ArityError
| TypeMismatchError
| RangeError.

Definition count_check_messages : list string :=
  ["Section must contain at least one text component";
   "Section can only contain up to 3 text components";
   "Container must contain at least one component";
   "MediaGallery must contain at least one item";
   "MediaGallery can only contain up to 10 items"].

Definition value_check_messages : list string :=
  ["accent_color must be between 0x000000 and 0xFFFFFF";
   "spacing must be either SeparatorSpacing.SMALL or SeparatorSpacing.LARGE"].

Definition mem (s : string) (l : list string) : bool :=
  existsb (String.eqb s) l.

Definition subkind (e : exn) : option ValidationError :=
  match e with
  | TypeError _ => Some TypeMismatchError
  | ValueError m =>
      if mem m count_check_messages then Some ArityError
      else if mem m value_check_messages then Some RangeError
      else None
  | AttributeError _ | NameError _ => None
  end.

(** The subkind of the error a call raised, [None] when it returned. *)
Definition raised {A : Type} (r : result A) : option ValidationError :=
  match r with
  | Ok _ => None
  | Raise e => subkind e
  end.

Definition message (e : exn) : string :=
  match e with
  | ValueError m | TypeError m | AttributeError m | NameError m => m
  end.

(** [needle in hay] on strings. *)
Fixpoint contains (needle hay : string) : bool :=
  String.prefix needle hay ||
  match hay with
  | EmptyString => false
  | String _ hay' => contains needle hay'
  end.

(** [str(n)] for a count. *)
Definition str_of_count (n : nat) : string :=
  NilZero.string_of_uint (Nat.to_uint n).

(** An error names the actual count when the count is printed in its
    message. *)
Definition names_count (e : exn) (n : nat) : bool :=
  contains (str_of_count n) (message e).

(** ** Payload declarations ([discord/types/components.py])

    A [TypedDict] declares its keys; a key is required unless it is marked
    [NotRequired] ([Optional[T]] only lets the value be [None]).  [td_type]
    is the [Literal] tag of the [type] key, when the declaration has one. *)
Record TypedDict : Type := mkTypedDict {
  td_type : option Z;
  td_required : list string;
  td_not_required : list string
}.

Definition SectionComponent : TypedDict :=
  mkTypedDict (Some 9) ["type"; "id"; "components"; "accessory"] [].

Definition TextDisplayComponent : TypedDict :=
  mkTypedDict (Some 10) ["type"; "content"] [].

Definition ThumbnailComponent : TypedDict :=
  mkTypedDict (Some 11) ["type"; "url"; "height"; "width"] [].

Definition MediaGalleryItem : TypedDict :=
  mkTypedDict None ["media"] ["description"; "spoiler"].

Definition UnfurledMediaItem : TypedDict :=
  mkTypedDict None ["url"] [].

Definition MediaGalleryComponent : TypedDict :=
  mkTypedDict (Some 12) ["type"; "items"] ["id"].

Definition FileComponent : TypedDict :=
  mkTypedDict (Some 13) ["type"; "file"] ["id"; "spoiler"].

Definition SeparatorComponent : TypedDict :=
  mkTypedDict (Some 14) ["type"] ["id"; "divider"; "spacing"].

Definition ContainerComponent : TypedDict :=
  mkTypedDict (Some 17) ["type"; "components"]
              ["id"; "accent_color"; "spoiler"].

(** The declaration for the payload of a class: the member of the
    [ComponentV2] union with that class's type tag. *)
Definition schema_of (c : PyClass) : option TypedDict :=
  match c with
  | cls_Section => Some SectionComponent
  | cls_TextDisplay => Some TextDisplayComponent
  | cls_Thumbnail => Some ThumbnailComponent
  | cls_MediaGalleryItem => Some MediaGalleryItem
  | cls_MediaGallery => Some MediaGalleryComponent
  | cls_File => Some FileComponent
  | cls_Separator => Some SeparatorComponent
  | cls_Container => Some ContainerComponent
  | cls_ActionRow | cls_Button | cls_other => None
  end.

Definition tag_matches (t : TypedDict) (d : dict) : bool :=
  match td_type t with
  | None => true
  | Some n =>
      match dict_get d "type" with
      | Some (JInt z) => z =? n
      | _ => false
      end
  end.

Definition required_present (t : TypedDict) (d : dict) : bool :=
  forallb (has_key d) (td_required t).

Definition only_declared (t : TypedDict) (d : dict) : bool :=
  forallb (fun k => mem k (td_required t ++ td_not_required t)) (keys d).

(** Structural match of a payload with a declaration: the tag, every
    required key present, no undeclared key. *)
Definition conforms (t : TypedDict) (d : dict) : bool :=
  tag_matches t d && required_present t d && only_declared t d.

(** The wire shapes as section 6 of the spec lists them, in the same
    format, to compare with the declarations above. *)
Definition wire_shape (c : PyClass) : option TypedDict :=
  match c with
  | cls_TextDisplay => Some (mkTypedDict (Some 10) ["type"; "content"] ["id"])
  | cls_Thumbnail =>
      Some (mkTypedDict (Some 11) ["type"; "media"]
                        ["description"; "spoiler"; "id"])
  | cls_MediaGalleryItem =>
      Some (mkTypedDict None ["media"] ["description"; "spoiler"])
  | cls_MediaGallery => Some (mkTypedDict (Some 12) ["type"; "items"] ["id"])
  | cls_File =>
      Some (mkTypedDict (Some 13) ["type"; "file"] ["spoiler"; "id"])
  | cls_Separator =>
      Some (mkTypedDict (Some 14) ["type"] ["divider"; "spacing"; "id"])
  | cls_Section =>
      Some (mkTypedDict (Some 9) ["type"; "components"] ["accessory"; "id"])
  | cls_Container =>
      Some (mkTypedDict (Some 17) ["type"; "components"]
                        ["accent_color"; "spoiler"; "id"])
  | cls_ActionRow | cls_Button | cls_other => None
  end.

(** The classes whose payload declaration the serializer follows. *)
Definition declared_as_serialized (c : PyClass) : bool :=
  match c with
  | cls_MediaGalleryItem | cls_MediaGallery | cls_File | cls_Separator
  | cls_Container => true
  | _ => false
  end.

(** ** Default omission, as the spec words it

    One row per optional field: the wire key, and what the payload must hold
    under it: nothing when the stored value is the documented default, the
    stored value otherwise. *)
Definition unless_default {A : Type} (eqb : A -> A -> bool) (default : A)
    (conv : A -> json) (stored : A) : option json :=
  if eqb stored default then None else Some (conv stored).

(** An absent accessory is omitted; a present one appears serialized. *)
Definition accessory_row (accessory : option PyObj) : option json :=
  match accessory with
  | None => None
  | Some a =>
      match to_dict a with
      | Ok d => Some (JObj d)
      | Raise _ => None
      end
  end.

Definition optional_fields (o : PyObj) : list (string * option json) :=
  match o with
  | obj_Section _ accessory id =>
      [("accessory", accessory_row accessory); ("id", option_map JInt id)]
  | obj_TextDisplay _ id => [("id", option_map JInt id)]
  | obj_Container _ accent_color spoiler id =>
      [("accent_color", option_map JInt accent_color);
       ("spoiler", unless_default Bool.eqb false JBool spoiler);
       ("id", option_map JInt id)]
  | obj_Thumbnail _ description spoiler id =>
      [("description", option_map JStr description);
       ("spoiler", unless_default Bool.eqb false JBool spoiler);
       ("id", option_map JInt id)]
  | obj_MediaGalleryItem _ description spoiler =>
      [("description", option_map JStr description);
       ("spoiler", unless_default Bool.eqb false JBool spoiler)]
  | obj_MediaGallery _ id => [("id", option_map JInt id)]
  | obj_File _ spoiler id =>
      [("spoiler", unless_default Bool.eqb false JBool spoiler);
       ("id", option_map JInt id)]
  | obj_Separator divider spacing id =>
      [("divider", unless_default Bool.eqb true JBool divider);
       ("spacing", unless_default Z.eqb SMALL JInt spacing);
       ("id", option_map JInt id)]
  | obj_Button _ | obj_ActionRow _ | obj_other _ => []
  end.

(** The stored child sequence of a composite object and the fixed key its
    payload holds the children under. *)
Definition child_sequence (o : PyObj) : option (string * list PyObj) :=
  match o with
  | obj_Section components _ _ => Some ("components", components)
  | obj_Container components _ _ _ => Some ("components", components)
  | obj_MediaGallery items _ => Some ("items", items)
  | _ => None
  end.

(** The keys every payload of the class holds, in the order of the dict
    literal its [to_dict] starts from. *)
Definition required_keys (o : PyObj) : list string :=
  match o with
  | obj_Section _ _ _ | obj_Container _ _ _ _ => ["type"; "components"]
  | obj_TextDisplay _ _ => ["type"; "content"]
  | obj_Thumbnail _ _ _ _ => ["type"; "media"]
  | obj_MediaGalleryItem _ _ _ => ["media"]
  | obj_MediaGallery _ _ => ["type"; "items"]
  | obj_File _ _ _ => ["type"; "file"]
  | obj_Separator _ _ _ => ["type"]
  | _ => []
  end.

Definition is_some {A : Type} (x : option A) : bool :=
  match x with Some _ => true | None => false end.

(** ** The spec's examples as constructor calls *)

(** [Container(components=[Section(components=[TextDisplay(content="hi")])],
    accent_color=0x5865F2)] *)
Definition hi_container : result PyObj :=
  t <- TextDisplay_init "hi" None ;;
  s <- Section_init [t] None None ;;
  Container_init [s] (Some 0x5865F2) false None.

(** A Container with children [Section A, Separator, Section B]. *)
Definition section_A : PyObj :=
  obj_Section [obj_TextDisplay "A" None] None None.
Definition section_B : PyObj :=
  obj_Section [obj_TextDisplay "B" None] None None.
Definition the_separator : PyObj := obj_Separator true SMALL None.
Definition ordered_container : PyObj :=
  obj_Container [section_A; the_separator; section_B] None false None.

(** A Section with three components, a Thumbnail accessory and an id. *)
Definition full_section : PyObj :=
  obj_Section [obj_TextDisplay "A" None; obj_TextDisplay "B" (Some 2);
               obj_TextDisplay "C" None]
              (Some (obj_Thumbnail "u" None false None)) (Some 1).

(** Four objects that are not TextDisplay instances. *)
Definition four_ints : list PyObj :=
  [obj_other "1"; obj_other "2"; obj_other "3"; obj_other "4"].

Definition four_texts : list PyObj :=
  [obj_TextDisplay "a" None; obj_TextDisplay "b" None;
   obj_TextDisplay "c" None; obj_TextDisplay "d" None].

(** ** Trees of objects *)

(** The objects an instance holds: its components or items, then its
    accessory. *)
Definition children (o : PyObj) : list PyObj :=
  match o with
  | obj_Section components accessory _ =>
      components ++ match accessory with Some a => [a] | None => [] end
  | obj_Container components _ _ _ => components
  | obj_MediaGallery items _ => items
  | _ => []
  end.

(** Every object below [o], at any depth. *)
Fixpoint descendants (o : PyObj) : list PyObj :=
  match o with
  | obj_Section components accessory _ =>
      flat_map (fun x => x :: descendants x) components ++
      match accessory with Some a => a :: descendants a | None => [] end
  | obj_Container components _ _ _ =>
      flat_map (fun x => x :: descendants x) components
  | obj_MediaGallery items _ =>
      flat_map (fun x => x :: descendants x) items
  | _ => []
  end.

Definition nodes (o : PyObj) : list PyObj := o :: descendants o.

(** The [type] property of the component classes; [MediaGalleryItem] is not
    a component and has none. *)
Definition type_of (o : PyObj) : option ComponentType :=
  match o with
  | obj_Section _ _ _ => Some section
  | obj_TextDisplay _ _ => Some text_display
  | obj_Container _ _ _ _ => Some container
  | obj_Thumbnail _ _ _ _ => Some thumbnail
  | obj_MediaGallery _ _ => Some media_gallery
  | obj_File _ _ _ => Some file
  | obj_Separator _ _ _ => Some separator
  | _ => None
  end.

(** The classes this module defines. *)
Definition module_class (c : PyClass) : bool :=
  match c with
  | cls_ActionRow | cls_Button | cls_other => false
  | _ => true
  end.

(** A tree made of instances of this module's classes only. *)
Definition own_tree (o : PyObj) : bool :=
  forallb (fun x => module_class (class_of x)) (nodes o).

(** The constraint each validating constructor enforces on the attributes
    of the instance it returns, as its checks state it. *)
Definition constraint (o : PyObj) : Prop :=
  match o with
  | obj_Section components accessory _ =>
      (1 <= List.length components <= 3)%nat /\
      (forall x, In x components -> class_of x = cls_TextDisplay) /\
      (forall a, accessory = Some a ->
                 class_of a = cls_Button \/ class_of a = cls_Thumbnail)
  | obj_MediaGallery items _ =>
      (1 <= List.length items <= 10)%nat /\
      (forall x, In x items -> class_of x = cls_MediaGalleryItem)
  | obj_Separator _ spacing _ => spacing = SMALL \/ spacing = LARGE
  | _ => True
  end.

(** The array a payload holds under a key, [None] when the key is absent
    or holds something else. *)
Definition array_at (d : dict) (key : string) : option (list json) :=
  match dict_get d key with
  | Some (JArr js) => Some js
  | _ => None
  end.

(** The [type] of an element of a components array. *)
Definition tag_of (j : json) : option Z :=
  match j with
  | JObj d => match dict_get d "type" with
              | Some (JInt z) => Some z
              | _ => None
              end
  | _ => None
  end.

(** * Properties *)

(** ** Helper lemmas *)

Ltac split_ifs H :=
  repeat match type of H with
         | context [if ?b then _ else _] => destruct b eqn:?
         end;
  try discriminate H.

Ltac unfold_inits H :=
  unfold Section_init, TextDisplay_init, Container_init, Thumbnail_init,
    MediaGalleryItem_init, MediaGallery_init, File_init, Separator_init in H;
  cbv beta iota delta [bind valid_types ActionRow dataclass] in H.

(** The two calls that evaluate an unbound name. *)
Lemma Container_init_outcome (c : list PyObj) (ac : option Z) (sp : bool)
    (i : option Z) :
  Container_init c ac sp i =
  if is_empty c
  then Raise (ValueError "Container must contain at least one component")
  else Raise (NameError "name 'ActionRow' is not defined").
Proof.
  unfold Container_init. destruct (is_empty c); reflexivity.
Qed.

Lemma MediaGalleryItem_init_outcome (u : string) (d : option string)
    (sp : bool) :
  MediaGalleryItem_init u d sp =
  Raise (NameError "name 'dataclass' is not defined").
Proof. reflexivity. Qed.

(** What a built object tells about the call that made it. *)
Lemma built_inv (o : PyObj) :
  built o ->
  match o with
  | obj_Section c a i =>
      Forall built c /\ (forall x, a = Some x -> built x) /\
      Section_init c a i = Ok o
  | obj_Container _ _ _ _ | obj_MediaGalleryItem _ _ _ => False
  | obj_MediaGallery its i =>
      Forall built its /\ MediaGallery_init its i = Ok o
  | obj_Separator d s i => Separator_init d s i = Ok o
  | _ => True
  end.
Proof.
  intros H; destruct H;
    try exact I;
    match goal with
    | E : _ = Ok _ |- _ =>
        pose proof E as E'; unfold_inits E; split_ifs E;
        inversion E; subst; auto
    end.
Qed.

Lemma collect_Ok {A : Type} (rs : list (result A)) :
  Forall (fun r => exists a, r = Ok a) rs -> exists l, collect rs = Ok l.
Proof.
  induction 1 as [|r rs [a ->] _ [l IH]]; simpl.
  - now exists [].
  - rewrite IH. now exists (a :: l).
Qed.

(** A comprehension that returned has one result per element, in order. *)
Lemma collect_map_nth {A B : Type} (f : A -> result B) (l : list A) :
  forall rs, collect (map f l) = Ok rs ->
  List.length rs = List.length l /\
  forall i x, nth_error l i = Some x ->
              exists y, f x = Ok y /\ nth_error rs i = Some y.
Proof.
  induction l as [|x l IH]; simpl; intros rs H.
  - inversion H; subst. split; [reflexivity|].
    intros [|i] y E; discriminate E.
  - destruct (f x) as [y|e] eqn:Ef; simpl in H; [|discriminate H].
    destruct (collect (map f l)) as [rs'|e] eqn:Ec; simpl in H;
      [|discriminate H].
    inversion H; subst. destruct (IH rs' eq_refl) as [Hlen Hnth].
    split; [simpl; now rewrite Hlen|].
    intros [|i] z E; simpl in E.
    + inversion E; subst. now exists y.
    + simpl. now apply Hnth.
Qed.

Lemma isinstance_has_to_dict (o : PyObj) (classes : list PyClass) :
  isinstance o classes = true ->
  existsb (PyClass_eqb cls_other) classes = false ->
  has_to_dict o = true.
Proof.
  unfold isinstance, has_to_dict. intros H Hn.
  destruct (class_of o); try reflexivity.
  rewrite Hn in H. discriminate H.
Qed.

(** The children a constructor accepted all answer [to_dict()]. *)
Lemma accepted_children (l : list PyObj) (classes : list PyClass) :
  forallb (fun x => isinstance x classes) l = true ->
  existsb (PyClass_eqb cls_other) classes = false ->
  Forall (fun x => has_to_dict x = true) l.
Proof.
  intros H Hn. rewrite forallb_forall in H. apply Forall_forall.
  intros x Hx. eapply isinstance_has_to_dict; eauto.
Qed.

Lemma children_collect (l : list PyObj) :
  Forall (fun x => built x -> has_to_dict x = true ->
                   exists d, to_dict x = Ok d) l ->
  Forall built l ->
  Forall (fun x => has_to_dict x = true) l ->
  exists ds, collect (map to_dict l) = Ok ds.
Proof.
  intros IH Hb Hd. apply collect_Ok. apply Forall_map.
  rewrite Forall_forall in *. auto.
Qed.

(** Serialization of a built tree returns. *)
Lemma to_dict_built (o : PyObj) :
  built o -> has_to_dict o = true -> exists d, to_dict o = Ok d.
Proof.
  induction o as
    [c a i IHc IHa | | c ac sp i IHc | | | its i IHi | | | | | ]
    using PyObj_tree_ind;
    intros Hb Hd; apply built_inv in Hb; simpl in *;
    try contradiction; try (eexists; reflexivity); try discriminate Hd.
  - destruct Hb as [Hc [Ha Hinit]].
    unfold Section_init in Hinit. split_ifs Hinit.
    apply negb_false_iff in Heqb1.
    destruct (children_collect c IHc Hc) as [l ->].
    { eapply accepted_children; eauto. }
    simpl. destruct a as [x|]; simpl; [|eexists; reflexivity].
    apply negb_false_iff in Heqb2.
    destruct (IHa x eq_refl (Ha x eq_refl)) as [d ->].
    { eapply isinstance_has_to_dict; eauto. }
    simpl. eexists; reflexivity.
  - destruct Hb as [Hc Hinit].
    unfold MediaGallery_init in Hinit. split_ifs Hinit.
    apply negb_false_iff in Heqb1.
    destruct (children_collect its IHi Hc) as [l ->].
    { eapply accepted_children; eauto. }
    simpl. eexists; reflexivity.
Qed.

Lemma init_returns_instance :
  (forall c a i, is_ok (Section_init c a i) = true ->
                 Section_init c a i = Ok (obj_Section c a i)) /\
  (forall its i, is_ok (MediaGallery_init its i) = true ->
                 MediaGallery_init its i = Ok (obj_MediaGallery its i)) /\
  (forall d s i, is_ok (Separator_init d s i) = true ->
                 Separator_init d s i = Ok (obj_Separator d s i)).
Proof.
  repeat split; intros;
    match goal with
    | H : is_ok ?r = true |- _ =>
        unfold Section_init, MediaGallery_init, Separator_init in *;
        repeat match goal with
               | |- context [if ?b then _ else _] => destruct b
               end;
        try reflexivity; discriminate H
    end.
Qed.

Lemma Container_never_returns (c : list PyObj) (ac : option Z) (sp : bool)
    (i : option Z) :
  is_ok (Container_init c ac sp i) = false.
Proof.
  rewrite Container_init_outcome. destruct (is_empty c); reflexivity.
Qed.

Lemma constructed_built (o : PyObj) : constructed o = true -> built o.
Proof.
  destruct init_returns_instance as [HS [HM HP]].
  induction o as
    [c a i IHc IHa | | c ac sp i IHc | | | its i IHi | | | | | ]
    using PyObj_tree_ind;
    simpl; intros H.
  - apply andb_true_iff in H. destruct H as [H H3].
    apply andb_true_iff in H. destruct H as [H1 H2].
    apply (built_Section c a i); [| |now apply HS].
    + rewrite forallb_forall in H1. rewrite Forall_forall in *. auto.
    + intros x ->. auto.
  - now apply (built_TextDisplay content id).
  - apply andb_true_iff in H. destruct H as [_ H2].
    rewrite Container_never_returns in H2. discriminate H2.
  - now apply (built_Thumbnail media_url description spoiler id).
  - discriminate H.
  - apply andb_true_iff in H. destruct H as [H1 H2].
    apply (built_MediaGallery its i); [|now apply HM].
    rewrite forallb_forall in H1. rewrite Forall_forall in *. auto.
  - now apply (built_File filename spoiler id).
  - apply (built_Separator divider spacing id). now apply HP.
  - apply built_Button.
  - apply built_ActionRow.
  - apply built_other.
Qed.

(** [to_dict] has no [raise] of its own: the only exception that can
    escape it is the failed method lookup on an object without [to_dict]. *)
Lemma collect_Raise {A : Type} (rs : list (result A)) (e : exn) :
  collect rs = Raise e -> In (Raise e) rs.
Proof.
  induction rs as [|r rs IH]; simpl; intros H; [discriminate H|].
  destruct r as [a|e']; simpl in H.
  - destruct (collect rs); simpl in H; [discriminate H|].
    inversion H; subst. right. now apply IH.
  - inversion H; subst. now left.
Qed.

Lemma to_dict_raises_only_lookup (o : PyObj) (e : exn) :
  to_dict o = Raise e -> exists m, e = AttributeError m.
Proof.
  revert e.
  induction o as
    [c a i IHc IHa | | c ac sp i IHc | | | its i IHi | | | | | ]
    using PyObj_tree_ind;
    simpl; intros e H; try discriminate H.
  - destruct (collect (map to_dict c)) as [l|e'] eqn:Ec; simpl in H.
    + destruct a as [x|]; simpl in H; [|discriminate H].
      destruct (to_dict x) as [d|e'] eqn:Ex; simpl in H; [discriminate H|].
      inversion H; subst. now apply (IHa x eq_refl).
    + inversion H; subst. apply collect_Raise in Ec.
      apply in_map_iff in Ec. destruct Ec as [x [Ex Hin]].
      rewrite Forall_forall in IHc. now apply (IHc x Hin).
  - destruct (collect (map to_dict c)) as [l|e'] eqn:Ec; simpl in H;
      [discriminate H|].
    inversion H; subst. apply collect_Raise in Ec.
    apply in_map_iff in Ec. destruct Ec as [x [Ex Hin]].
    rewrite Forall_forall in IHc. now apply (IHc x Hin).
  - destruct (collect (map to_dict its)) as [l|e'] eqn:Ec; simpl in H;
      [discriminate H|].
    inversion H; subst. apply collect_Raise in Ec.
    apply in_map_iff in Ec. destruct Ec as [x [Ex Hin]].
    rewrite Forall_forall in IHi. now apply (IHi x Hin).
  - inversion H. now eexists.
Qed.

(** ** End-to-end example *)

(** C1: the spec's example
    [Container(components=[Section(components=[TextDisplay(content="hi")])],
    accent_color=0x5865F2)] is not constructed: the TextDisplay and the
    Section are, but [Container.__init__] then evaluates the unbound name
    [ActionRow] and raises [NameError].  The serializer is not at fault: on
    a Container object holding these attributes [to_dict] gives exactly
    [{"type":17,"components":[{"type":9,"components":[{"type":10,
    "content":"hi"}]}],"accent_color":5793266}]. *)
Theorem hi_container_raises_NameError :
  hi_container = Raise (NameError "name 'ActionRow' is not defined") /\
  (t <- TextDisplay_init "hi" None ;; Section_init [t] None None)
    = Ok (obj_Section [obj_TextDisplay "hi" None] None None) /\
  to_dict (obj_Container [obj_Section [obj_TextDisplay "hi" None] None None]
                         (Some 0x5865F2) false None)
    = Ok [("type", JInt 17);
          ("components",
           JArr [JObj [("type", JInt 9);
                       ("components",
                        JArr [JObj [("type", JInt 10);
                                    ("content", JStr "hi")]])]]);
          ("accent_color", JInt 5793266)].
Proof.
  repeat split; reflexivity.
Qed.

(** ** Serialization never fails *)

(** C4: for every object of a class with [to_dict] whose construction (and
    that of everything inside it) succeeded, [to_dict] returns a payload;
    and on any object whatsoever [to_dict] raises no validation error: an
    exception escaping it is not an arity, type-mismatch or range error. *)
Theorem serialize_never_raises (o : PyObj) :
  built o -> has_to_dict o = true ->
  (exists d, to_dict o = Ok d) /\
  (forall e, to_dict o = Raise e -> subkind e = None).
Proof.
  intros Hb Hd. split; [now apply to_dict_built|].
  intros e He. destruct (to_dict_raises_only_lookup o e He) as [m ->].
  reflexivity.
Qed.

Lemma serialize_never_raises_witness :
  (exists d, to_dict full_section = Ok d) /\
  (forall e, to_dict full_section = Raise e -> subkind e = None).
Proof.
  apply (serialize_never_raises full_section).
  - apply constructed_built. reflexivity.
  - reflexivity.
Defined.

(** ** Leaf constructors *)

(** C10: the constructors of TextDisplay, Thumbnail and File check
    nothing: for all arguments of the declared types the call returns, and
    the instance holds every argument unchanged; in particular the empty
    string is accepted as content, media_url and filename.
    MediaGalleryItem has no such constructor: the class is declared under
    the decorator [dataclass], a name the module never binds, so the call
    raises [NameError] for all arguments. *)
Theorem leaf_constructors
    (content media_url filename : string) (description : option string)
    (spoiler : bool) (id : option Z) :
  TextDisplay_init content id = Ok (obj_TextDisplay content id) /\
  Thumbnail_init media_url description spoiler id =
    Ok (obj_Thumbnail media_url description spoiler id) /\
  File_init filename spoiler id = Ok (obj_File filename spoiler id) /\
  is_ok (TextDisplay_init "" id) = true /\
  is_ok (Thumbnail_init "" description spoiler id) = true /\
  is_ok (File_init "" spoiler id) = true /\
  MediaGalleryItem_init media_url description spoiler =
    Raise (NameError "name 'dataclass' is not defined").
Proof.
  repeat split; reflexivity.
Qed.

(** ** Media references *)

(** C8: a Thumbnail and a MediaGalleryItem hold [{"url": media_url}] under
    the key [media], a File holds [{"url": "attachment://" + filename}]
    under the key [file]; the url is not a key of the payload itself, and
    the file url depends on the filename only. *)
Theorem media_nested_not_flattened
    (media_url filename : string) (description : option string)
    (spoiler : bool) (id : option Z) :
  (exists d,
      to_dict (obj_Thumbnail media_url description spoiler id) = Ok d /\
      dict_get d "media" = Some (JObj [("url", JStr media_url)]) /\
      dict_get d "url" = None) /\
  (exists d,
      to_dict (obj_MediaGalleryItem media_url description spoiler) = Ok d /\
      dict_get d "media" = Some (JObj [("url", JStr media_url)]) /\
      dict_get d "url" = None) /\
  (exists d,
      to_dict (obj_File filename spoiler id) = Ok d /\
      dict_get d "file" =
        Some (JObj [("url", JStr ("attachment://" ++ filename))]) /\
      dict_get d "url" = None).
Proof.
  repeat split; eexists; (split; [reflexivity|]);
    destruct description, spoiler, id; split; reflexivity.
Qed.

(** ** Order of children *)

Lemma child_array (o : PyObj) (key : string) (children : list PyObj)
    (d : dict) :
  child_sequence o = Some (key, children) ->
  to_dict o = Ok d ->
  exists ds, collect (map to_dict children) = Ok ds /\
             dict_get d key = Some (JArr (map JObj ds)).
Proof.
  destruct o; simpl; intros Hc H; inversion Hc; subst; clear Hc.
  - destruct (collect (map to_dict children)) as [ds|] eqn:E; simpl in H;
      [|discriminate H].
    exists ds. split; [reflexivity|].
    destruct accessory as [x|]; simpl in H.
    + destruct (to_dict x); simpl in H; [|discriminate H].
      inversion H; subst. destruct id; reflexivity.
    + inversion H; subst. destruct id; reflexivity.
  - destruct (collect (map to_dict children)) as [ds|] eqn:E; simpl in H;
      [|discriminate H].
    exists ds. split; [reflexivity|].
    inversion H; subst. destruct accent_color, spoiler, id; reflexivity.
  - destruct (collect (map to_dict children)) as [ds|] eqn:E; simpl in H;
      [|discriminate H].
    exists ds. split; [reflexivity|].
    inversion H; subst. destruct id; reflexivity.
Qed.



(** [to_dict] on a Container object holding [Section A, Separator,
    Section B] keeps that order (the constructor itself does not return such
    an object, see [Container_init_outcome]). *)
Example ordered_container_payload :
  to_dict ordered_container =
    Ok [("type", JInt 17);
        ("components",
         JArr [JObj [("type", JInt 9);
                     ("components",
                      JArr [JObj [("type", JInt 10);
                                  ("content", JStr "A")]])];
               JObj [("type", JInt 14)];
               JObj [("type", JInt 9);
                     ("components",
                      JArr [JObj [("type", JInt 10);
                                  ("content", JStr "B")]])]])].
Proof. reflexivity. Qed.

(** ** Default omission *)

(** A row that holds [None] says the key is absent, a row that holds a
    value says the key is present with that value; and [unless_default]
    holds [None] exactly at the default. *)
Lemma unless_default_None {A : Type} (eqb : A -> A -> bool) (default : A)
    (conv : A -> json) (stored : A) :
  unless_default eqb default conv stored = None <->
  eqb stored default = true.
Proof.
  unfold unless_default. destruct (eqb stored default); split;
    intros H; try reflexivity; discriminate H.
Qed.




(** ** Count bounds *)

Lemma is_empty_length (l : list PyObj) :
  is_empty l = true <-> List.length l = 0%nat.
Proof.
  destruct l; simpl; split; intros H; try reflexivity; discriminate H.
Qed.

Lemma len_gt_length (l : list PyObj) (n : nat) :
  len_gt l n = true <-> (n < List.length l)%nat.
Proof. unfold len_gt. apply Nat.ltb_lt. Qed.

Lemma not_empty (l : list PyObj) :
  (1 <= List.length l)%nat -> is_empty l = false.
Proof. destruct l; simpl; [lia|reflexivity]. Qed.

Lemma not_len_gt (l : list PyObj) (n : nat) :
  (List.length l <= n)%nat -> len_gt l n = false.
Proof. unfold len_gt. intros H. apply Nat.ltb_ge. exact H. Qed.

(** C5, as the code has it: a count outside the bound makes the constructor
    raise the [ValueError] of its count check, an arity error whose fixed
    message names the kind and the violated bound; a count inside the bound
    raises no arity error.  Section rejects 0 and more than 3 components,
    MediaGallery 0 and more than 10 items, Container 0 components. *)
Theorem count_bounds (components : list PyObj) (accessory : option PyObj)
    (accent_color : option Z) (spoiler : bool) (id : option Z) :
  let n := List.length components in
  ((n = 0)%nat ->
   Section_init components accessory id =
     Raise (ValueError "Section must contain at least one text component")) /\
  ((3 < n)%nat ->
   Section_init components accessory id =
     Raise (ValueError "Section can only contain up to 3 text components")) /\
  ((1 <= n <= 3)%nat ->
   raised (Section_init components accessory id) <> Some ArityError) /\
  ((n = 0)%nat ->
   MediaGallery_init components id =
     Raise (ValueError "MediaGallery must contain at least one item")) /\
  ((10 < n)%nat ->
   MediaGallery_init components id =
     Raise (ValueError "MediaGallery can only contain up to 10 items")) /\
  ((1 <= n <= 10)%nat ->
   raised (MediaGallery_init components id) <> Some ArityError) /\
  ((n = 0)%nat ->
   Container_init components accent_color spoiler id =
     Raise (ValueError "Container must contain at least one component")) /\
  ((1 <= n)%nat ->
   raised (Container_init components accent_color spoiler id)
     <> Some ArityError) /\
  Forall (fun m => subkind (ValueError m) = Some ArityError)
         count_check_messages.
Proof.
  intros n. subst n. repeat split.
  - intros H. apply is_empty_length in H.
    unfold Section_init. now rewrite H.
  - intros H. unfold Section_init.
    rewrite not_empty by lia. apply len_gt_length in H. now rewrite H.
  - intros [H1 H3]. unfold Section_init.
    rewrite (not_empty _ H1), (not_len_gt _ _ H3).
    repeat match goal with
           | |- context [if ?b then _ else _] => destruct b
           end; simpl; discriminate.
  - intros H. apply is_empty_length in H.
    unfold MediaGallery_init. now rewrite H.
  - intros H. unfold MediaGallery_init.
    rewrite not_empty by lia. apply len_gt_length in H. now rewrite H.
  - intros [H1 H3]. unfold MediaGallery_init.
    rewrite (not_empty _ H1), (not_len_gt _ _ H3).
    repeat match goal with
           | |- context [if ?b then _ else _] => destruct b
           end; simpl; discriminate.
  - intros H. apply is_empty_length in H.
    rewrite Container_init_outcome. now rewrite H.
  - intros H1. rewrite Container_init_outcome, (not_empty _ H1).
    simpl. discriminate.
  - repeat constructor.
Qed.

Lemma count_bounds_witness :
  Section_init four_texts None None =
    Raise (ValueError "Section can only contain up to 3 text components") /\
  MediaGallery_init [] None =
    Raise (ValueError "MediaGallery must contain at least one item") /\
  raised (Container_init [the_separator] None false None)
    <> Some ArityError.
Proof.
  split; [|split].
  - destruct (count_bounds four_texts None None false None)
      as (_ & H & _).
    apply H. simpl. lia.
  - destruct (count_bounds [] None None false None)
      as (_ & _ & _ & H & _).
    apply H. reflexivity.
  - destruct (count_bounds [the_separator] None None false None)
      as (_ & _ & _ & _ & _ & _ & _ & H & _).
    apply H. simpl. lia.
Defined.

(** C5, as stated, fails: the arity error does not name the actual count.
    A Section built from four TextDisplay instances raises the arity error,
    and its message does not show the count 4. *)
Lemma arity_error_omits_count :
  exists e,
    Section_init four_texts None None = Raise e /\
    subkind e = Some ArityError /\
    List.length four_texts = 4%nat /\
    names_count e 4 = false.
Proof.
  eexists. repeat split; reflexivity.
Qed.

(** ** Type whitelists *)

Lemma outside_whitelist (l : list PyObj) (classes : list PyClass)
    (c : PyObj) :
  In c l -> isinstance c classes = false ->
  forallb (fun x => isinstance x classes) l = false.
Proof.
  intros Hin Hc. destruct (forallb _ l) eqn:E; [|reflexivity].
  rewrite forallb_forall in E. rewrite (E c Hin) in Hc. discriminate Hc.
Qed.

(** C6, as the code has it: the count checks run first, so a Section (a
    MediaGallery) whose count is within its bound raises the [TypeError] of
    its whitelist check for any component that is not a TextDisplay (any
    item that is not a MediaGalleryItem), and a Section within its bound
    raises a [TypeError] for an accessory that is neither a Button nor a
    Thumbnail; arguments with only whitelisted elements raise no type
    error. *)
Theorem type_whitelists (components : list PyObj)
    (accessory : option PyObj) (id : option Z) :
  let n := List.length components in
  ((1 <= n <= 3)%nat ->
   forall c, In c components -> isinstance c [cls_TextDisplay] = false ->
   Section_init components accessory id =
     Raise (TypeError "All components must be TextDisplay instances")) /\
  ((1 <= n <= 3)%nat ->
   forall a, accessory = Some a ->
   isinstance a [cls_Button; cls_Thumbnail] = false ->
   raised (Section_init components accessory id) = Some TypeMismatchError /\
   (forallb (fun x => isinstance x [cls_TextDisplay]) components = true ->
    Section_init components accessory id =
      Raise (TypeError
               "Accessory must be either a Button or Thumbnail instance"))) /\
  ((1 <= n <= 10)%nat ->
   forall c, In c components ->
   isinstance c [cls_MediaGalleryItem] = false ->
   MediaGallery_init components id =
     Raise (TypeError "All items must be MediaGalleryItem instances")) /\
  (forallb (fun x => isinstance x [cls_TextDisplay]) components = true ->
   match accessory with
   | Some a => isinstance a [cls_Button; cls_Thumbnail] = true
   | None => True
   end ->
   raised (Section_init components accessory id)
     <> Some TypeMismatchError) /\
  (forallb (fun x => isinstance x [cls_MediaGalleryItem]) components = true ->
   raised (MediaGallery_init components id) <> Some TypeMismatchError).
Proof.
  intros n. subst n.
  split; [|split; [|split; [|split]]].
  - intros [H1 H3] c Hin Hc. unfold Section_init.
    rewrite (not_empty _ H1), (not_len_gt _ _ H3).
    now rewrite (outside_whitelist _ _ c Hin Hc).
  - intros [H1 H3] a -> Ha. unfold Section_init.
    rewrite (not_empty _ H1), (not_len_gt _ _ H3), Ha.
    split.
    + destruct (forallb _ components); reflexivity.
    + intros Hall. now rewrite Hall.
  - intros [H1 H3] c Hin Hc. unfold MediaGallery_init.
    rewrite (not_empty _ H1), (not_len_gt _ _ H3).
    now rewrite (outside_whitelist _ _ c Hin Hc).
  - intros Hall Hacc. unfold Section_init. rewrite Hall.
    destruct accessory as [a|]; [rewrite Hacc|];
      destruct (is_empty components), (len_gt components 3);
      simpl; discriminate.
  - intros Hall. unfold MediaGallery_init. rewrite Hall.
    destruct (is_empty components), (len_gt components 10);
      simpl; discriminate.
Qed.

Lemma type_whitelists_witness :
  Section_init [obj_other "1"] None None =
    Raise (TypeError "All components must be TextDisplay instances") /\
  Section_init [obj_TextDisplay "a" None] (Some (obj_File "f" false None))
               None =
    Raise (TypeError
             "Accessory must be either a Button or Thumbnail instance") /\
  MediaGallery_init [obj_TextDisplay "a" None] None =
    Raise (TypeError "All items must be MediaGalleryItem instances") /\
  raised (Section_init [obj_TextDisplay "a" None]
                       (Some (obj_Thumbnail "u" None false None)) None)
    <> Some TypeMismatchError.
Proof.
  split; [|split; [|split]].
  - destruct (type_whitelists [obj_other "1"] None None) as (H & _).
    apply (H ltac:(simpl; lia) (obj_other "1")); [now left|reflexivity].
  - destruct (type_whitelists [obj_TextDisplay "a" None]
                (Some (obj_File "f" false None)) None)
      as (_ & H & _).
    apply (H ltac:(simpl; lia) (obj_File "f" false None));
      reflexivity.
  - destruct (type_whitelists [obj_TextDisplay "a" None] None None)
      as (_ & _ & H & _).
    apply (H ltac:(simpl; lia) (obj_TextDisplay "a" None));
      [now left|reflexivity].
  - destruct (type_whitelists [obj_TextDisplay "a" None]
                (Some (obj_Thumbnail "u" None false None)) None)
      as (_ & _ & _ & H & _).
    apply H; reflexivity.
Defined.

(** C6, as stated, fails: an element outside the whitelist does not always
    raise the type error.  Four objects that are not TextDisplay instances
    make Section raise its arity error, and so does an accessory that is
    neither a Button nor a Thumbnail next to an empty component list. *)
Lemma section_count_check_runs_first :
  forallb (fun c => negb (isinstance c [cls_TextDisplay])) four_ints = true /\
  Section_init four_ints None None =
    Raise (ValueError "Section can only contain up to 3 text components") /\
  raised (Section_init four_ints None None) <> Some TypeMismatchError /\
  isinstance (obj_other "x") [cls_Button; cls_Thumbnail] = false /\
  Section_init [] (Some (obj_other "x")) None =
    Raise (ValueError "Section must contain at least one text component") /\
  raised (Section_init [] (Some (obj_other "x")) None)
    <> Some TypeMismatchError.
Proof.
  repeat split; try reflexivity; simpl; discriminate.
Qed.

(** ** Range checks *)

(** C7: the range check of Separator works as stated: every spacing other
    than 1 and 2 (3 among them) raises the [ValueError] of the check, a
    range error, and 1 and 2 are accepted.  The range check of Container is
    never reached: with a non-empty component list the constructor raises
    [NameError] for the unbound name [ActionRow] before it looks at
    accent_color, so -1 and 0x1000000 raise no range error and 0 and
    0xFFFFFF are not accepted. *)
Theorem range_check_unreachable_in_Container (components : list PyObj)
    (c spacing : Z) (spoiler divider : bool) (id : option Z) :
  let Container_accent := fun v =>
    Container_init components (Some v) spoiler id in
  let spacing_error :=
    ValueError "spacing must be either SeparatorSpacing.SMALL or SeparatorSpacing.LARGE" in
  (components <> [] ->
   Container_accent c = Raise (NameError "name 'ActionRow' is not defined")) /\
  raised (Container_accent (-1)) <> Some RangeError /\
  raised (Container_accent 0x1000000) <> Some RangeError /\
  is_ok (Container_accent 0) = false /\
  is_ok (Container_accent 0xFFFFFF) = false /\
  (spacing <> 1 -> spacing <> 2 ->
   Separator_init divider spacing id = Raise spacing_error) /\
  Separator_init divider 3 id = Raise spacing_error /\
  Separator_init divider 1 id = Ok (obj_Separator divider 1 id) /\
  Separator_init divider 2 id = Ok (obj_Separator divider 2 id) /\
  subkind spacing_error = Some RangeError.
Proof.
  intros Container_accent spacing_error. subst Container_accent.
  cbv beta. rewrite !Container_init_outcome.
  split; [|split; [|split; [|split; [|split]]]].
  - intros Hne. destruct components; [contradiction|reflexivity].
  - destruct (is_empty components); simpl; discriminate.
  - destruct (is_empty components); simpl; discriminate.
  - destruct (is_empty components); reflexivity.
  - destruct (is_empty components); reflexivity.
  - repeat split; try reflexivity.
    intros H1 H2. unfold Separator_init, SMALL, LARGE.
    destruct (spacing =? 1) eqn:E1; [lia|].
    destruct (spacing =? 2) eqn:E2; [lia|]. reflexivity.
Qed.

Lemma range_check_unreachable_in_Container_witness :
  Container_init [obj_TextDisplay "a" None] (Some 0) false None =
    Raise (NameError "name 'ActionRow' is not defined") /\
  Separator_init true 0 None =
    Raise (ValueError "spacing must be either SeparatorSpacing.SMALL or SeparatorSpacing.LARGE").
Proof.
  split.
  - destruct (range_check_unreachable_in_Container
                [obj_TextDisplay "a" None] 0 0 false true None) as (H & _).
    apply H. discriminate.
  - destruct (range_check_unreachable_in_Container
                [obj_TextDisplay "a" None] 0 0 false true None)
      as (_ & _ & _ & _ & _ & H & _).
    apply H; lia.
Defined.

(** ** Wire schema *)

Ltac payload_cases E :=
  simpl in E;
  repeat match type of E with
         | context [collect ?l] => destruct (collect l); simpl in E
         | context [match ?a with Some _ => _ | None => _ end] =>
             destruct a; simpl in E
         | context [to_dict ?x] => destruct (to_dict x); simpl in E
         end;
  try discriminate E; inversion E; subst; clear E.

Ltac field_cases :=
  unfold Separator_to_dict;
  repeat match goal with
         | x : option _ |- _ => destruct x
         | b : bool |- _ => destruct b
         | |- context [?z =? SMALL] => destruct (z =? SMALL)
         end.

(** Every payload has the shape section 6 of the spec gives for its kind. *)
Lemma payload_has_wire_shape (o : PyObj) (d : dict) :
  to_dict o = Ok d ->
  match wire_shape (class_of o) with
  | Some t => conforms t d = true
  | None => True
  end.
Proof.
  intros E. destruct o; simpl; try exact I; payload_cases E;
    field_cases; reflexivity.
Qed.

(** The payloads of MediaGalleryItem, MediaGallery, File, Separator and
    Container also match their declarations in the types module. *)
Lemma payload_matches_declaration (o : PyObj) (d : dict) :
  to_dict o = Ok d ->
  declared_as_serialized (class_of o) = true ->
  match schema_of (class_of o) with
  | Some t => conforms t d = true
  | None => True
  end.
Proof.
  intros E Hc. destruct o; simpl in Hc; try discriminate Hc; simpl;
    payload_cases E;
    field_cases; reflexivity.
Qed.

(** C3: the payloads of Thumbnail, Section and TextDisplay do not match
    their declarations in the types module.  [Thumbnail(media_url="u")]
    serializes to [{"type": 11, "media": {"url": "u"}}], while
    [ThumbnailComponent] requires the keys [url], [height] and [width] and
    declares no key [media]; [Section(components=[TextDisplay(content="A")])]
    omits the keys [id] and [accessory], which [SectionComponent] requires;
    [TextDisplay(content="A", id=1)] emits the key [id], which
    [TextDisplayComponent] does not declare. *)
Theorem payload_breaks_declaration :
  (exists d,
      (t <- Thumbnail_init "u" None false None ;; to_dict t) = Ok d /\
      d = [("type", JInt 11); ("media", JObj [("url", JStr "u")])] /\
      schema_of cls_Thumbnail = Some ThumbnailComponent /\
      tag_matches ThumbnailComponent d = true /\
      required_present ThumbnailComponent d = false /\
      only_declared ThumbnailComponent d = false /\
      conforms ThumbnailComponent d = false) /\
  (exists d,
      (s <- Section_init [obj_TextDisplay "A" None] None None ;; to_dict s)
        = Ok d /\
      schema_of cls_Section = Some SectionComponent /\
      has_key d "id" = false /\ has_key d "accessory" = false /\
      required_present SectionComponent d = false /\
      conforms SectionComponent d = false) /\
  (exists d,
      (t <- TextDisplay_init "A" (Some 1) ;; to_dict t) = Ok d /\
      schema_of cls_TextDisplay = Some TextDisplayComponent /\
      has_key d "id" = true /\
      only_declared TextDisplayComponent d = false /\
      conforms TextDisplayComponent d = false).
Proof.
  repeat split; eexists; repeat split; reflexivity.
Qed.

(** * Further properties of the constructors and serializers *)

(** ** What the constructors accept *)

Lemma PyClass_eqb_eq (a b : PyClass) : PyClass_eqb a b = true <-> a = b.
Proof.
  destruct a, b; simpl; split; intros H; try reflexivity; discriminate H.
Qed.

Lemma isinstance_In (o : PyObj) (classes : list PyClass) :
  isinstance o classes = true <-> In (class_of o) classes.
Proof.
  unfold isinstance. rewrite existsb_exists. split.
  - intros [c [Hin Hc]]. apply PyClass_eqb_eq in Hc. now rewrite Hc.
  - intros Hin. exists (class_of o). split; [assumption|].
    now apply PyClass_eqb_eq.
Qed.

Lemma all_isinstance (l : list PyObj) (classes : list PyClass) :
  forallb (fun x => isinstance x classes) l = true <->
  forall x, In x l -> In (class_of x) classes.
Proof.
  rewrite forallb_forall. split; intros H x Hx; apply isinstance_In; auto.
Qed.

Lemma In_singleton (c d : PyClass) : In c [d] <-> c = d.
Proof.
  simpl. split; [intros [H|[]]; now symmetry | intros ->; now left].
Qed.

Lemma In_pair (c d e : PyClass) : In c [d; e] <-> c = d \/ c = e.
Proof.
  simpl. split.
  - intros [H|[H|[]]]; [left|right]; now symmetry.
  - intros [->| ->]; [left|right; left]; reflexivity.
Qed.

Lemma spacing_allowed (s : Z) :
  negb ((s =? SMALL) || (s =? LARGE)) = false <-> s = SMALL \/ s = LARGE.
Proof.
  rewrite negb_false_iff, orb_true_iff, Z.eqb_eq, Z.eqb_eq. reflexivity.
Qed.

Lemma Section_accepts (c : list PyObj) (a : option PyObj) (i : option Z) :
  Section_init c a i = Ok (obj_Section c a i) <->
  constraint (obj_Section c a i).
Proof.
  unfold Section_init, constraint. split.
  - intros H. split_ifs H.
    apply negb_false_iff in Heqb1.
    split; [|split].
    + split.
      * destruct c; [discriminate Heqb|simpl; lia].
      * apply Nat.ltb_ge. exact Heqb0.
    + intros x Hx. apply In_singleton.
      now apply (proj1 (all_isinstance c [cls_TextDisplay]) Heqb1).
    + intros x ->. apply negb_false_iff in Heqb2.
      apply In_pair. now apply isinstance_In.
  - intros [[H1 H3] [Hc Ha]].
    rewrite (not_empty _ H1), (not_len_gt _ _ H3).
    assert (E : forallb (fun x => isinstance x [cls_TextDisplay]) c = true).
    { apply all_isinstance. intros x Hx. apply In_singleton. auto. }
    rewrite E.
    destruct a as [x|]; [|reflexivity].
    assert (E' : isinstance x [cls_Button; cls_Thumbnail] = true).
    { apply isinstance_In. apply In_pair. auto. }
    now rewrite E'.
Qed.

Lemma MediaGallery_accepts (its : list PyObj) (i : option Z) :
  MediaGallery_init its i = Ok (obj_MediaGallery its i) <->
  constraint (obj_MediaGallery its i).
Proof.
  unfold MediaGallery_init, constraint. split.
  - intros H. split_ifs H.
    apply negb_false_iff in Heqb1.
    split.
    + split.
      * destruct its; [discriminate Heqb|simpl; lia].
      * apply Nat.ltb_ge. exact Heqb0.
    + intros x Hx. apply In_singleton.
      now apply (proj1 (all_isinstance its [cls_MediaGalleryItem]) Heqb1).
  - intros [[H1 H3] Hc].
    rewrite (not_empty _ H1), (not_len_gt _ _ H3).
    assert (E : forallb (fun x => isinstance x [cls_MediaGalleryItem]) its
                = true).
    { apply all_isinstance. intros x Hx. apply In_singleton. auto. }
    now rewrite E.
Qed.

Lemma Separator_accepts (d : bool) (s : Z) (i : option Z) :
  Separator_init d s i = Ok (obj_Separator d s i) <->
  constraint (obj_Separator d s i).
Proof.
  unfold Separator_init, constraint. split.
  - intros H. split_ifs H. now apply spacing_allowed.
  - intros H. now rewrite (proj2 (spacing_allowed s) H).
Qed.

(** X1: Section, MediaGallery and Separator return exactly when their
    arguments meet the structural constraint of the class (count within the
    bound, every element of the whitelisted class, accessory a Button or
    Thumbnail, spacing 1 or 2), and what they return is the instance
    holding those arguments. *)
Theorem constructors_accept_exactly_the_constraint
    (components : list PyObj) (accessory : option PyObj)
    (divider : bool) (spacing : Z) (id : option Z) :
  (Section_init components accessory id
     = Ok (obj_Section components accessory id) <->
   constraint (obj_Section components accessory id)) /\
  (MediaGallery_init components id = Ok (obj_MediaGallery components id) <->
   constraint (obj_MediaGallery components id)) /\
  (Separator_init divider spacing id
     = Ok (obj_Separator divider spacing id) <->
   constraint (obj_Separator divider spacing id)) /\
  (forall o,
      Section_init components accessory id = Ok o \/
      MediaGallery_init components id = Ok o \/
      Separator_init divider spacing id = Ok o ->
      constraint o /\
      (o = obj_Section components accessory id \/
       o = obj_MediaGallery components id \/
       o = obj_Separator divider spacing id)).
Proof.
  split; [apply Section_accepts|].
  split; [apply MediaGallery_accepts|].
  split; [apply Separator_accepts|].
  destruct init_returns_instance as [HS [HM HP]].
  intros o [H|[H|H]].
  - assert (E := H). rewrite HS in E by now rewrite H.
    inversion E; subst. split; [|now left].
    apply Section_accepts. now rewrite H.
  - assert (E := H). rewrite HM in E by now rewrite H.
    inversion E; subst. split; [|right; now left].
    apply MediaGallery_accepts. now rewrite H.
  - assert (E := H). rewrite HP in E by now rewrite H.
    inversion E; subst. split; [|right; now right].
    apply Separator_accepts. now rewrite H.
Qed.

Lemma constructors_accept_exactly_the_constraint_witness :
  Section_init [obj_TextDisplay "a" None]
               (Some (obj_Thumbnail "u" None false None)) None
    = Ok (obj_Section [obj_TextDisplay "a" None]
                      (Some (obj_Thumbnail "u" None false None)) None) /\
  constraint (obj_Separator true LARGE None).
Proof.
  split.
  - destruct (constructors_accept_exactly_the_constraint
                [obj_TextDisplay "a" None]
                (Some (obj_Thumbnail "u" None false None))
                true LARGE None) as ([_ H] & _).
    apply H. simpl. split; [lia|]. split.
    + intros x [<-|[]]. reflexivity.
    + intros a E. inversion E; subst. now right.
  - destruct (constructors_accept_exactly_the_constraint
                [] None true LARGE None) as (_ & _ & [H _] & _).
    apply H. reflexivity.
Defined.

(** ** Invariants of built trees *)

Lemma built_constraint (o : PyObj) : built o -> constraint o.
Proof.
  intros Hb. apply built_inv in Hb. destruct o; try exact I.
  - apply Section_accepts. tauto.
  - apply MediaGallery_accepts. tauto.
  - apply Separator_accepts. exact Hb.
Qed.

Lemma built_children (o : PyObj) :
  built o -> Forall built (children o).
Proof.
  intros Hb. apply built_inv in Hb. destruct o; simpl; try constructor.
  - destruct Hb as [Hc [Ha _]]. apply Forall_app. split; [assumption|].
    destruct accessory as [a|]; constructor; auto.
  - tauto.
  - tauto.
Qed.

Lemma in_descendants_list (l : list PyObj) (s : PyObj) :
  In s (flat_map (fun x => x :: descendants x) l) ->
  exists x, In x l /\ (s = x \/ In s (descendants x)).
Proof.
  intros H. apply in_flat_map in H. destruct H as [x [Hx [E|Hs]]].
  - exists x. split; [assumption|]. left. now symmetry.
  - exists x. split; [assumption|]. now right.
Qed.

(** A descendant is a child, or a descendant of a child. *)
Lemma descendants_children (o s : PyObj) :
  In s (descendants o) ->
  exists x, In x (children o) /\ (s = x \/ In s (descendants x)).
Proof.
  destruct o; simpl; try contradiction; intros H.
  - apply in_app_or in H. destruct H as [H|H].
    + apply in_descendants_list in H. destruct H as [x [Hx Hs]].
      exists x. split; [apply in_or_app; now left|assumption].
    + destruct accessory as [a|]; [|contradiction].
      exists a. split; [apply in_or_app; right; now left|].
      destruct H as [E|H]; [left; now symmetry|now right].
  - now apply in_descendants_list.
  - now apply in_descendants_list.
Qed.

Lemma built_descendants (o : PyObj) :
  built o -> forall s, In s (descendants o) -> built s.
Proof.
  induction o as
    [c a i IHc IHa | | c ac sp i IHc | | | its i IHi | | | | | ]
    using PyObj_tree_ind;
    intros Hb s Hs; try contradiction;
    pose proof (built_children _ Hb) as Hch;
    apply descendants_children in Hs; destruct Hs as [x [Hx Hs]];
    rewrite Forall_forall in Hch; pose proof (Hch x Hx) as Hbx;
    (destruct Hs as [->|Hs]; [assumption|]); simpl in Hx.
  - apply in_app_or in Hx. destruct Hx as [Hx|Hx].
    + rewrite Forall_forall in IHc. now apply (IHc x Hx).
    + destruct a as [y|]; [|contradiction]. destruct Hx as [<-|[]].
      now apply (IHa y eq_refl).
  - rewrite Forall_forall in IHc. now apply (IHc x Hx).
  - rewrite Forall_forall in IHi. now apply (IHi x Hx).
Qed.

(** X2: in a built tree every object, at any depth, meets the structural
    constraint of its class: every Section has 1 to 3 components, all
    TextDisplay, and an accessory that is a Button or a Thumbnail if any;
    every MediaGallery has 1 to 10 items, all MediaGalleryItem; every
    Separator has spacing 1 or 2. *)
Theorem built_tree_meets_constraints (o s : PyObj) :
  built o -> In s (nodes o) -> constraint s.
Proof.
  intros Hb [<-|Hs]; apply built_constraint; [assumption|].
  now apply (built_descendants o).
Qed.

Lemma built_tree_meets_constraints_witness :
  constraint full_section.
Proof.
  apply (built_tree_meets_constraints full_section full_section).
  - apply constructed_built. reflexivity.
  - simpl. tauto.
Defined.

(** ** What the unbound names leave constructible *)




(** ** Serialization does not validate *)

Lemma is_ok_collect {A B : Type} (f : A -> result B) (l : list A) :
  is_ok (collect (map f l)) = forallb (fun x => is_ok (f x)) l.
Proof.
  induction l as [|x l IH]; simpl; [reflexivity|].
  destruct (f x); simpl; [|reflexivity].
  rewrite <- IH. destruct (collect (map f l)); reflexivity.
Qed.

Lemma forallb_flat_map {A B : Type} (p : B -> bool) (g : A -> list B)
    (l : list A) :
  forallb p (flat_map g l) = forallb (fun x => forallb p (g x)) l.
Proof.
  induction l as [|x l IH]; simpl; [reflexivity|].
  now rewrite forallb_app, IH.
Qed.

Lemma forallb_ext_in {A : Type} (p q : A -> bool) (l : list A) :
  Forall (fun x => p x = q x) l -> forallb p l = forallb q l.
Proof.
  induction 1 as [|x l E _ IH]; simpl; [reflexivity|]. now rewrite E, IH.
Qed.

Lemma to_dict_ok_nodes (o : PyObj) :
  is_ok (to_dict o) = forallb has_to_dict (nodes o).
Proof.
  unfold nodes.
  induction o as
    [c a i IHc IHa | | c ac sp i IHc | | | its i IHi | | | | | ]
    using PyObj_tree_ind; try reflexivity.
  - simpl. rewrite forallb_app, forallb_flat_map.
    rewrite <- (forallb_ext_in _ _ c IHc).
    rewrite <- is_ok_collect.
    destruct (collect (map to_dict c)) as [ds|]; simpl; [|reflexivity].
    destruct a as [x|]; simpl; [|reflexivity].
    change (has_to_dict x && forallb has_to_dict (descendants x))
      with (forallb has_to_dict (x :: descendants x)).
    rewrite <- (IHa x eq_refl).
    destruct (to_dict x); reflexivity.
  - simpl. rewrite forallb_flat_map.
    rewrite <- (forallb_ext_in _ _ c IHc).
    rewrite <- is_ok_collect.
    destruct (collect (map to_dict c)) as [ds|]; reflexivity.
  - simpl. rewrite forallb_flat_map.
    rewrite <- (forallb_ext_in _ _ its IHi).
    rewrite <- is_ok_collect.
    destruct (collect (map to_dict its)) as [ds|]; reflexivity.
Qed.

Lemma to_dict_lookup_error (o : PyObj) (e : exn) :
  to_dict o = Raise e ->
  e = AttributeError "object has no attribute 'to_dict'".
Proof.
  revert e.
  induction o as
    [c a i IHc IHa | | c ac sp i IHc | | | its i IHi | | | | | ]
    using PyObj_tree_ind;
    simpl; intros e H; try discriminate H.
  - destruct (collect (map to_dict c)) as [l|e'] eqn:Ec; simpl in H.
    + destruct a as [x|]; simpl in H; [|discriminate H].
      destruct (to_dict x) as [d|e'] eqn:Ex; simpl in H; [discriminate H|].
      inversion H; subst. now apply (IHa x eq_refl).
    + inversion H; subst. apply collect_Raise in Ec.
      apply in_map_iff in Ec. destruct Ec as [x [Ex Hin]].
      rewrite Forall_forall in IHc. now apply (IHc x Hin).
  - destruct (collect (map to_dict c)) as [l|e'] eqn:Ec; simpl in H;
      [discriminate H|].
    inversion H; subst. apply collect_Raise in Ec.
    apply in_map_iff in Ec. destruct Ec as [x [Ex Hin]].
    rewrite Forall_forall in IHc. now apply (IHc x Hin).
  - destruct (collect (map to_dict its)) as [l|e'] eqn:Ec; simpl in H;
      [discriminate H|].
    inversion H; subst. apply collect_Raise in Ec.
    apply in_map_iff in Ec. destruct Ec as [x [Ex Hin]].
    rewrite Forall_forall in IHi. now apply (IHi x Hin).
  - now inversion H.
Qed.

(** X5: [to_dict] checks nothing: on any tree of objects, built or not
    (attributes may have been reassigned after construction), it returns
    exactly when every object of the tree has a [to_dict] method, whatever
    the counts, classes and values; and when it does not return, what
    escapes is the [AttributeError] of the failed method lookup, never a
    validation error. *)
Theorem to_dict_does_not_validate (o : PyObj) :
  match to_dict o with
  | Ok _ => forallb has_to_dict (nodes o) = true
  | Raise e =>
      forallb has_to_dict (nodes o) = false /\
      e = AttributeError "object has no attribute 'to_dict'"
  end.
Proof.
  pose proof (to_dict_ok_nodes o) as H.
  destruct (to_dict o) as [d|e] eqn:E; simpl in H; [now symmetry|].
  split; [now symmetry|]. now apply (to_dict_lookup_error o).
Qed.

(** A Section holding five TextDisplay objects and a Separator holding
    spacing 3 are rejected by the constructors and still serialized. *)
Example unchecked_objects_serialize :
  let five := obj_TextDisplay "e" None :: four_texts in
  is_ok (Section_init five None None) = false /\
  is_ok (to_dict (obj_Section five None None)) = true /\
  is_ok (Separator_init true 3 None) = false /\
  to_dict (obj_Separator true 3 None)
    = Ok [("type", JInt 14); ("spacing", JInt 3)].
Proof.
  repeat split; reflexivity.
Qed.

(** ** The payload determines the tree *)

Lemma own_tree_unfold (o : PyObj) :
  own_tree o = module_class (class_of o) && forallb own_tree (children o).
Proof.
  unfold own_tree, nodes.
  destruct o; simpl; try reflexivity;
    rewrite ?forallb_app, ?forallb_flat_map; try reflexivity.
  destruct accessory as [a|]; simpl; rewrite ?andb_true_r; reflexivity.
Qed.

Lemma own_tree_children (o x : PyObj) :
  own_tree o = true -> In x (children o) -> own_tree x = true.
Proof.
  rewrite own_tree_unfold. intros H Hx.
  apply andb_true_iff in H. destruct H as [_ H].
  rewrite forallb_forall in H. now apply H.
Qed.

Lemma own_tree_to_dict (o : PyObj) :
  own_tree o = true -> exists d, to_dict o = Ok d.
Proof.
  intros H.
  assert (E : is_ok (to_dict o) = true).
  { rewrite to_dict_ok_nodes. unfold own_tree in H.
    rewrite forallb_forall in *. intros x Hx. specialize (H x Hx).
    unfold has_to_dict. destruct (class_of x); try reflexivity.
    discriminate H. }
  destruct (to_dict o) as [d|]; [now exists d|discriminate E].
Qed.

(** Every payload of a class of this module starts with its [type] entry,
    except that of a gallery item, which starts with [media]. *)
Lemma payload_head (o : PyObj) (d : dict) :
  to_dict o = Ok d ->
  module_class (class_of o) = true ->
  match type_of o with
  | Some t => exists rest, d = ("type", JInt (value t)) :: rest
  | None => exists u rest, d = ("media", u) :: rest
  end.
Proof.
  intros E Hc. destruct o; simpl in Hc; try discriminate Hc; simpl;
    payload_cases E; field_cases; eexists; try eexists; reflexivity.
Qed.

Lemma same_payload_same_class (o1 o2 : PyObj) (d : dict) :
  own_tree o1 = true -> own_tree o2 = true ->
  to_dict o1 = Ok d -> to_dict o2 = Ok d ->
  class_of o1 = class_of o2.
Proof.
  intros H1 H2 E1 E2.
  rewrite own_tree_unfold in H1, H2.
  apply andb_true_iff in H1, H2. destruct H1 as [H1 _], H2 as [H2 _].
  pose proof (payload_head o1 d E1 H1) as P1.
  pose proof (payload_head o2 d E2 H2) as P2.
  destruct o1; simpl in H1; try discriminate H1;
    destruct o2; simpl in H2; try discriminate H2;
    try reflexivity; simpl in P1, P2;
    repeat match goal with
           | H : exists _, _ |- _ => destruct H
           end;
    subst d; discriminate.
Qed.

Ltac fields_equal H :=
  simpl in H; inversion H; subst; repeat split; reflexivity.

Lemma TextDisplay_to_dict_inj c1 i1 c2 i2 :
  TextDisplay_to_dict c1 i1 = TextDisplay_to_dict c2 i2 ->
  c1 = c2 /\ i1 = i2.
Proof.
  unfold TextDisplay_to_dict. destruct i1, i2; intros H; fields_equal H.
Qed.

Lemma Thumbnail_to_dict_inj u1 d1 s1 i1 u2 d2 s2 i2 :
  Thumbnail_to_dict u1 d1 s1 i1 = Thumbnail_to_dict u2 d2 s2 i2 ->
  u1 = u2 /\ d1 = d2 /\ s1 = s2 /\ i1 = i2.
Proof.
  unfold Thumbnail_to_dict.
  destruct d1, d2, s1, s2, i1, i2; intros H; fields_equal H.
Qed.

Lemma MediaGalleryItem_to_dict_inj u1 d1 s1 u2 d2 s2 :
  MediaGalleryItem_to_dict u1 d1 s1 = MediaGalleryItem_to_dict u2 d2 s2 ->
  u1 = u2 /\ d1 = d2 /\ s1 = s2.
Proof.
  unfold MediaGalleryItem_to_dict.
  destruct d1, d2, s1, s2; intros H; fields_equal H.
Qed.

Lemma File_to_dict_inj f1 s1 i1 f2 s2 i2 :
  File_to_dict f1 s1 i1 = File_to_dict f2 s2 i2 ->
  f1 = f2 /\ s1 = s2 /\ i1 = i2.
Proof.
  unfold File_to_dict.
  destruct s1, s2, i1, i2; intros H; fields_equal H.
Qed.

Lemma Separator_to_dict_inj d1 s1 i1 d2 s2 i2 :
  Separator_to_dict d1 s1 i1 = Separator_to_dict d2 s2 i2 ->
  d1 = d2 /\ s1 = s2 /\ i1 = i2.
Proof.
  unfold Separator_to_dict.
  destruct (s1 =? SMALL) eqn:E1; destruct (s2 =? SMALL) eqn:E2;
    try (apply Z.eqb_eq in E1); try (apply Z.eqb_eq in E2);
    destruct d1, d2, i1, i2; intros H; simpl in H; inversion H; subst;
    repeat split; reflexivity.
Qed.

Lemma map_JObj_inj (l1 l2 : list dict) :
  map JObj l1 = map JObj l2 -> l1 = l2.
Proof.
  revert l2. induction l1 as [|d l1 IH]; intros [|d' l2] H;
    try discriminate H; [reflexivity|].
  simpl in H. inversion H; subst. f_equal. now apply IH.
Qed.

Lemma Section_payload_inj c1 a1 i1 c2 a2 i2 :
  Section_payload c1 a1 i1 = Section_payload c2 a2 i2 ->
  c1 = c2 /\ a1 = a2 /\ i1 = i2.
Proof.
  unfold Section_payload.
  destruct a1, a2, i1, i2; intros H; simpl in H; inversion H;
    match goal with
    | E : map JObj _ = map JObj _ |- _ => apply map_JObj_inj in E
    end; subst; repeat split; reflexivity.
Qed.

Lemma Container_payload_inj c1 a1 s1 i1 c2 a2 s2 i2 :
  Container_payload c1 a1 s1 i1 = Container_payload c2 a2 s2 i2 ->
  c1 = c2 /\ a1 = a2 /\ s1 = s2 /\ i1 = i2.
Proof.
  unfold Container_payload.
  destruct a1, a2, s1, s2, i1, i2; intros H; simpl in H; inversion H;
    match goal with
    | E : map JObj _ = map JObj _ |- _ => apply map_JObj_inj in E
    end; subst; repeat split; reflexivity.
Qed.

Lemma MediaGallery_payload_inj c1 i1 c2 i2 :
  MediaGallery_payload c1 i1 = MediaGallery_payload c2 i2 ->
  c1 = c2 /\ i1 = i2.
Proof.
  unfold MediaGallery_payload.
  destruct i1, i2; intros H; simpl in H; inversion H;
    match goal with
    | E : map JObj _ = map JObj _ |- _ => apply map_JObj_inj in E
    end; subst; repeat split; reflexivity.
Qed.

Lemma collect_to_dict_inj (l1 : list PyObj) :
  Forall (fun x => forall y, own_tree x = true -> own_tree y = true ->
                             to_dict x = to_dict y -> x = y) l1 ->
  forall l2 ds,
    (forall x, In x l1 -> own_tree x = true) ->
    (forall y, In y l2 -> own_tree y = true) ->
    collect (map to_dict l1) = Ok ds ->
    collect (map to_dict l2) = Ok ds ->
    l1 = l2.
Proof.
  induction 1 as [|x l1 Hx _ IH]; intros [|y l2] ds H1 H2 E1 E2;
    simpl in E1, E2.
  - reflexivity.
  - inversion E1; subst.
    destruct (to_dict y); simpl in E2; [|discriminate E2].
    destruct (collect (map to_dict l2)); simpl in E2; discriminate E2.
  - inversion E2; subst.
    destruct (to_dict x); simpl in E1; [|discriminate E1].
    destruct (collect (map to_dict l1)); simpl in E1; discriminate E1.
  - destruct (to_dict x) as [dx|] eqn:Ex; simpl in E1; [|discriminate E1].
    destruct (collect (map to_dict l1)) as [r1|] eqn:Er1; simpl in E1;
      [|discriminate E1].
    destruct (to_dict y) as [dy|] eqn:Ey; simpl in E2; [|discriminate E2].
    destruct (collect (map to_dict l2)) as [r2|] eqn:Er2; simpl in E2;
      [|discriminate E2].
    inversion E1; subst. inversion E2; subst.
    f_equal.
    + apply Hx; [apply H1; now left|apply H2; now left|].
      congruence.
    + eapply IH; eauto.
      * intros z Hz. apply H1. now right.
      * intros z Hz. apply H2. now right.
Qed.

Lemma own_tree_list (o : PyObj) (l : list PyObj) :
  own_tree o = true -> (forall x, In x l -> In x (children o)) ->
  forall x, In x l -> own_tree x = true.
Proof.
  intros H Hsub x Hx. apply (own_tree_children o); auto.
Qed.

Lemma to_dict_inj (o1 : PyObj) :
  forall o2, own_tree o1 = true -> own_tree o2 = true ->
             to_dict o1 = to_dict o2 -> o1 = o2.
Proof.
  induction o1 as
    [c a i IHc IHa | | c ac sp i IHc | | | its i IHi | | | | | ]
    using PyObj_tree_ind;
    intros o2 H1 H2 E;
    destruct (own_tree_to_dict _ H1) as [d E1];
    assert (E2 : to_dict o2 = Ok d) by congruence;
    pose proof (same_payload_same_class _ _ d H1 H2 E1 E2) as Hc;
    destruct o2; try discriminate Hc; clear Hc E.
  - (* Section *)
    simpl in E1, E2.
    destruct (collect (map to_dict c)) as [ds1|] eqn:C1; simpl in E1;
      [|discriminate E1].
    destruct (collect (map to_dict components)) as [ds2|] eqn:C2;
      simpl in E2; [|discriminate E2].
    assert (Hc1 : forall x, In x c -> own_tree x = true).
    { apply (own_tree_list _ _ H1). intros x Hx. simpl.
      apply in_or_app. now left. }
    assert (Hc2 : forall x, In x components -> own_tree x = true).
    { apply (own_tree_list _ _ H2). intros x Hx. simpl.
      apply in_or_app. now left. }
    destruct a as [x1|], accessory as [x2|]; simpl in E1, E2.
    + destruct (to_dict x1) as [dx1|] eqn:A1; simpl in E1;
        [|discriminate E1].
      destruct (to_dict x2) as [dx2|] eqn:A2; simpl in E2;
        [|discriminate E2].
      inversion E1; subst d. inversion E2 as [E].
      apply Section_payload_inj in E. destruct E as [Ec [Ea Ei]].
      inversion Ea; subst.
      assert (x1 = x2).
      { apply (IHa x1 eq_refl).
        - apply (own_tree_children _ _ H1). simpl. apply in_or_app.
          right. now left.
        - apply (own_tree_children _ _ H2). simpl. apply in_or_app.
          right. now left.
        - congruence. }
      assert (c = components)
        by (eapply collect_to_dict_inj; eauto).
      now subst.
    + destruct (to_dict x1) as [dx1|] eqn:A1; simpl in E1;
        [|discriminate E1].
      inversion E1; subst d. inversion E2 as [E].
      apply Section_payload_inj in E. destruct E as [_ [Ea _]].
      discriminate Ea.
    + destruct (to_dict x2) as [dx2|] eqn:A2; simpl in E2;
        [|discriminate E2].
      inversion E1; subst d. inversion E2 as [E].
      apply Section_payload_inj in E. destruct E as [_ [Ea _]].
      discriminate Ea.
    + inversion E1; subst d. inversion E2 as [E].
      apply Section_payload_inj in E. destruct E as [Ec [_ Ei]]. subst.
      assert (c = components)
        by (eapply collect_to_dict_inj; eauto).
      now subst.
  - (* TextDisplay *)
    simpl in E1, E2. inversion E1; subst d. inversion E2 as [E].
    apply TextDisplay_to_dict_inj in E. destruct E as [-> ->].
    reflexivity.
  - (* Container *)
    simpl in E1, E2.
    destruct (collect (map to_dict c)) as [ds1|] eqn:C1; simpl in E1;
      [|discriminate E1].
    destruct (collect (map to_dict components)) as [ds2|] eqn:C2;
      simpl in E2; [|discriminate E2].
    inversion E1; subst d. inversion E2 as [E].
    apply Container_payload_inj in E. destruct E as [Ec [-> [-> ->]]].
    subst.
    assert (c = components).
    { eapply collect_to_dict_inj; eauto.
      - apply (own_tree_list _ _ H1). auto.
      - apply (own_tree_list _ _ H2). auto. }
    now subst.
  - (* Thumbnail *)
    simpl in E1, E2. inversion E1; subst d. inversion E2 as [E].
    apply Thumbnail_to_dict_inj in E. destruct E as [-> [-> [-> ->]]].
    reflexivity.
  - (* MediaGalleryItem *)
    simpl in E1, E2. inversion E1; subst d. inversion E2 as [E].
    apply MediaGalleryItem_to_dict_inj in E. destruct E as [-> [-> ->]].
    reflexivity.
  - (* MediaGallery *)
    simpl in E1, E2.
    destruct (collect (map to_dict its)) as [ds1|] eqn:C1; simpl in E1;
      [|discriminate E1].
    destruct (collect (map to_dict items)) as [ds2|] eqn:C2;
      simpl in E2; [|discriminate E2].
    inversion E1; subst d. inversion E2 as [E].
    apply MediaGallery_payload_inj in E. destruct E as [Ec ->]. subst.
    assert (its = items).
    { eapply collect_to_dict_inj; eauto.
      - apply (own_tree_list _ _ H1). auto.
      - apply (own_tree_list _ _ H2). auto. }
    now subst.
  - (* File *)
    simpl in E1, E2. inversion E1; subst d. inversion E2 as [E].
    apply File_to_dict_inj in E. destruct E as [-> [-> ->]].
    reflexivity.
  - (* Separator *)
    simpl in E1, E2. inversion E1; subst d. inversion E2 as [E].
    apply Separator_to_dict_inj in E. destruct E as [-> [-> ->]].
    reflexivity.
  - discriminate H1.
  - discriminate H1.
  - discriminate H1.
Qed.

(** X6: serialization loses nothing: two trees made of instances of this
    module's classes that serialize to the same payload are the same tree
    (same classes, same children in the same order, same attribute
    values). *)
Theorem payload_determines_tree (o1 o2 : PyObj) :
  own_tree o1 = true -> own_tree o2 = true ->
  to_dict o1 = to_dict o2 -> o1 = o2.
Proof.
  apply to_dict_inj.
Qed.

Lemma payload_determines_tree_witness :
  obj_Separator (negb true) (SMALL + 1) None = obj_Separator false LARGE None.
Proof.
  apply (payload_determines_tree
           (obj_Separator (negb true) (SMALL + 1) None)
           (obj_Separator false LARGE None));
    reflexivity.
Defined.

(** ** The type tag *)

Lemma value_inj (t1 t2 : ComponentType) : value t1 = value t2 -> t1 = t2.
Proof.
  destruct t1, t2; simpl; intros H; try reflexivity; discriminate H.
Qed.

Lemma type_of_class (o1 o2 : PyObj) (t : ComponentType) :
  type_of o1 = Some t -> type_of o2 = Some t -> class_of o1 = class_of o2.
Proof.
  destruct o1; simpl; intros H1; inversion H1; subst;
    destruct o2; simpl; intros H2; inversion H2; reflexivity.
Qed.

Lemma typed_is_module_class (o : PyObj) (t : ComponentType) :
  type_of o = Some t -> module_class (class_of o) = true.
Proof.
  destruct o; simpl; intros H; try reflexivity; discriminate H.
Qed.

Lemma payload_type (o : PyObj) (d : dict) (t : ComponentType) :
  to_dict o = Ok d -> type_of o = Some t ->
  hd_error d = Some ("type", JInt (value t)) /\
  dict_get d "type" = Some (JInt (value t)).
Proof.
  intros E Ht.
  pose proof (payload_head o d E (typed_is_module_class o t Ht)) as H.
  rewrite Ht in H. destruct H as [rest ->]. split; reflexivity.
Qed.

(** X7: the [type] entry discriminates the payloads of the seven component
    classes: it is the first entry of the payload, its value is the value
    of the class's [type] property, and two payloads carry the same
    [type] exactly when their objects are of the same class.  The payload
    of a MediaGalleryItem has no [type] entry. *)
Theorem type_entry_discriminates (o1 o2 : PyObj) (d1 d2 : dict)
    (t1 t2 : ComponentType) :
  to_dict o1 = Ok d1 -> type_of o1 = Some t1 ->
  to_dict o2 = Ok d2 -> type_of o2 = Some t2 ->
  hd_error d1 = Some ("type", JInt (value t1)) /\
  (dict_get d1 "type" = dict_get d2 "type" <-> class_of o1 = class_of o2) /\
  (forall media_url description spoiler,
      dict_get (MediaGalleryItem_to_dict media_url description spoiler)
               "type" = None).
Proof.
  intros E1 T1 E2 T2.
  destruct (payload_type o1 d1 t1 E1 T1) as [Hh1 Hg1].
  destruct (payload_type o2 d2 t2 E2 T2) as [_ Hg2].
  split; [assumption|]. split.
  - rewrite Hg1, Hg2. split.
    + intros H. inversion H as [Hv]. apply value_inj in Hv. subst t2.
      now apply (type_of_class o1 o2 t1).
    + intros Hc. destruct o1; simpl in T1; inversion T1; subst;
        destruct o2; simpl in Hc; try discriminate Hc;
        simpl in T2; inversion T2; subst; reflexivity.
  - intros u de sp. destruct de, sp; reflexivity.
Qed.

Lemma type_entry_discriminates_witness :
  hd_error [("type", JInt 14)] = Some ("type", JInt (value separator)) /\
  (dict_get [("type", JInt 14)] "type"
     = dict_get (File_to_dict "f" false None) "type" <->
   class_of the_separator = class_of (obj_File "f" false None)) /\
  (forall media_url description spoiler,
      dict_get (MediaGalleryItem_to_dict media_url description spoiler)
               "type" = None).
Proof.
  apply (type_entry_discriminates the_separator (obj_File "f" false None)
           [("type", JInt 14)] (File_to_dict "f" false None)
           separator file);
    reflexivity.
Defined.

(** ** Keys *)

(** X8: every write of a [to_dict] adds a key of its own: the keys of the
    payload, in insertion order, are the keys of the dict literal the
    method starts from, followed by the key of each optional field that is
    not at its default, in the order of the [if] statements of the method;
    no write lands on a key that is already there. *)
Theorem payload_keys_in_order (o : PyObj) (d : dict) :
  to_dict o = Ok d ->
  module_class (class_of o) = true ->
  keys d =
  (required_keys o ++
   map fst (filter (fun row => is_some (snd row)) (optional_fields o)))%list.
Proof.
  intros E Hc. destruct o; simpl in Hc; try discriminate Hc;
    unfold optional_fields, accessory_row, required_keys, unless_default;
    payload_cases E; field_cases; reflexivity.
Qed.

Lemma payload_keys_in_order_witness :
  keys (Thumbnail_to_dict "u" (Some "alt") false (Some 3))
  = ["type"; "media"; "description"; "id"].
Proof.
  apply (payload_keys_in_order (obj_Thumbnail "u" (Some "alt") false (Some 3)));
    reflexivity.
Defined.

(** ** Constructor failures *)

(** X9: Section, MediaGallery and Separator, when they do not return,
    raise one of the three validation errors (an arity, type-mismatch or
    range error) and nothing else.  Container does not: its failure is the
    arity [ValueError] when the list is empty and otherwise the
    [NameError] for [ActionRow], which is none of the three. *)
Theorem constructor_failures (components : list PyObj)
    (accessory : option PyObj) (accent_color : option Z)
    (spoiler divider : bool) (spacing : Z) (id : option Z) (e : exn) :
  (Section_init components accessory id = Raise e \/
   MediaGallery_init components id = Raise e \/
   Separator_init divider spacing id = Raise e ->
   exists k, subkind e = Some k) /\
  (Container_init components accent_color spoiler id = Raise e ->
   (components = [] /\
    e = ValueError "Container must contain at least one component" /\
    subkind e = Some ArityError) \/
   (components <> [] /\
    e = NameError "name 'ActionRow' is not defined" /\
    subkind e = None)).
Proof.
  split.
  - intros [H|[H|H]]; unfold_inits H;
      repeat match type of H with
             | context [if ?b then _ else _] => destruct b
             end;
      inversion H; subst; eexists; reflexivity.
  - rewrite Container_init_outcome.
    destruct components; simpl; intros H; inversion H; subst.
    + left. repeat split.
    + right. repeat split. discriminate.
Qed.

Lemma constructor_failures_witness :
  (exists k,
      subkind (ValueError "MediaGallery must contain at least one item")
      = Some k) /\
  (([the_separator] = [] /\
    NameError "name 'ActionRow' is not defined"
    = ValueError "Container must contain at least one component" /\
    subkind (NameError "name 'ActionRow' is not defined") = Some ArityError)
   \/
   ([the_separator] <> [] /\
    NameError "name 'ActionRow' is not defined"
    = NameError "name 'ActionRow' is not defined" /\
    subkind (NameError "name 'ActionRow' is not defined") = None)).
Proof.
  split.
  - destruct (constructor_failures [] None None false true 1 None
                (ValueError "MediaGallery must contain at least one item"))
      as [H _].
    apply H. right. left. reflexivity.
  - destruct (constructor_failures [the_separator] None None false true 1
                None (NameError "name 'ActionRow' is not defined"))
      as [_ H].
    apply H. reflexivity.
Defined.

(** ** Validation looks at classes only *)

Lemma forallb_classes (p : PyClass -> bool) (l : list PyObj) :
  forallb (fun x => p (class_of x)) l = forallb p (map class_of l).
Proof.
  induction l as [|x l IH]; simpl; [reflexivity|]. now rewrite IH.
Qed.

Lemma all_isinstance_classes (l1 l2 : list PyObj) (classes : list PyClass) :
  map class_of l1 = map class_of l2 ->
  forallb (fun x => isinstance x classes) l1 =
  forallb (fun x => isinstance x classes) l2.
Proof.
  intros H. unfold isinstance.
  rewrite (forallb_classes (fun c => existsb (PyClass_eqb c) classes) l1).
  rewrite (forallb_classes (fun c => existsb (PyClass_eqb c) classes) l2).
  now rewrite H.
Qed.

Lemma is_empty_classes (l1 l2 : list PyObj) :
  map class_of l1 = map class_of l2 -> is_empty l1 = is_empty l2.
Proof.
  destruct l1, l2; simpl; intros H; try reflexivity; discriminate H.
Qed.

Lemma len_gt_classes (l1 l2 : list PyObj) (n : nat) :
  map class_of l1 = map class_of l2 -> len_gt l1 n = len_gt l2 n.
Proof.
  intros H. unfold len_gt.
  rewrite <- (length_map class_of l1), <- (length_map class_of l2).
  now rewrite H.
Qed.

Ltac same_failure :=
  repeat match goal with
         | |- context [if ?b then _ else _] => destruct b
         end;
  split; intros H; try exact H; discriminate H.

(** X10: validation is shallow: whether a constructor raises, and which
    exception, depends only on the number and classes of the elements, on
    the class of the accessory and on the accent_color; the contents of
    the elements, [id] and [spoiler] play no part. *)
Theorem validation_sees_classes_only
    (c1 c2 : list PyObj) (a1 a2 : option PyObj) (accent_color : option Z)
    (sp1 sp2 : bool) (i1 i2 : option Z) (e : exn) :
  map class_of c1 = map class_of c2 ->
  option_map class_of a1 = option_map class_of a2 ->
  (Section_init c1 a1 i1 = Raise e <-> Section_init c2 a2 i2 = Raise e) /\
  (Container_init c1 accent_color sp1 i1 = Raise e <->
   Container_init c2 accent_color sp2 i2 = Raise e) /\
  (MediaGallery_init c1 i1 = Raise e <-> MediaGallery_init c2 i2 = Raise e).
Proof.
  intros Hc Ha.
  assert (Hacc :
    match a1 with
    | Some a => negb (isinstance a [cls_Button; cls_Thumbnail])
    | None => false
    end =
    match a2 with
    | Some a => negb (isinstance a [cls_Button; cls_Thumbnail])
    | None => false
    end).
  { destruct a1, a2; simpl in Ha; try discriminate Ha; [|reflexivity].
    unfold isinstance. inversion Ha as [E]. now rewrite E. }
  rewrite !Container_init_outcome.
  unfold Section_init, MediaGallery_init.
  rewrite (is_empty_classes _ _ Hc), !(len_gt_classes _ _ _ Hc),
    !(all_isinstance_classes _ _ _ Hc), Hacc.
  split; [|split]; same_failure.
Qed.

Lemma validation_sees_classes_only_witness :
  Section_init [obj_TextDisplay "x" None; obj_File "f" false None] None None
    = Raise (TypeError "All components must be TextDisplay instances") <->
  Section_init [obj_TextDisplay "y" (Some 4); obj_File "g" true (Some 1)]
               None (Some 9)
    = Raise (TypeError "All components must be TextDisplay instances").
Proof.
  destruct (validation_sees_classes_only
              [obj_TextDisplay "x" None; obj_File "f" false None]
              [obj_TextDisplay "y" (Some 4); obj_File "g" true (Some 1)]
              None None None false false None (Some 9)
              (TypeError "All components must be TextDisplay instances")
              eq_refl eq_refl) as (H & _).
  exact H.
Defined.

(** ** What a built object puts on the wire *)

Lemma collect_map_In {A B : Type} (f : A -> result B) (l : list A) :
  forall ds, collect (map f l) = Ok ds ->
  forall y, In y ds -> exists x, In x l /\ f x = Ok y.
Proof.
  induction l as [|x l IH]; simpl; intros ds H y Hy.
  - inversion H; subst. contradiction.
  - destruct (f x) as [dx|] eqn:Ex; simpl in H; [|discriminate H].
    destruct (collect (map f l)) as [r|] eqn:Er; simpl in H;
      [|discriminate H].
    inversion H; subst. destruct Hy as [<-|Hy].
    + exists x. split; [now left|assumption].
    + destruct (IH r eq_refl y Hy) as [x' [Hx' Ex']].
      exists x'. split; [now right|assumption].
Qed.

Lemma array_at_child_array (o : PyObj) (key : string)
    (l : list PyObj) (d : dict) :
  child_sequence o = Some (key, l) -> to_dict o = Ok d ->
  exists ds, collect (map to_dict l) = Ok ds /\
             array_at d key = Some (map JObj ds).
Proof.
  intros Hc E. destruct (child_array o key l d Hc E) as [ds [Eds Hget]].
  exists ds. split; [assumption|]. unfold array_at. now rewrite Hget.
Qed.

(** X11: the wire bounds of built objects: the payload of a built Section
    holds 1 to 3 components, all with type 10; that of a built
    MediaGallery holds 1 to 10 items, each matching the declaration of a
    gallery item; that of a built Container holds at least one component
    and an accent_color, if any, that is an integer within 0..0xFFFFFF;
    that of a built Separator holds no spacing or the spacing 2. *)
Theorem built_payload_bounds (o : PyObj) (d : dict) :
  built o -> to_dict o = Ok d ->
  match o with
  | obj_Section _ _ _ =>
      exists js, array_at d "components" = Some js /\
                 (1 <= List.length js <= 3)%nat /\
                 forall j, In j js -> tag_of j = Some 10
  | obj_MediaGallery _ _ =>
      exists js, array_at d "items" = Some js /\
                 (1 <= List.length js <= 10)%nat /\
                 forall j, In j js ->
                   exists dj, j = JObj dj /\
                              conforms MediaGalleryItem dj = true
  | obj_Container _ _ _ _ =>
      exists js, array_at d "components" = Some js /\
                 (1 <= List.length js)%nat /\
                 forall v, dict_get d "accent_color" = Some v ->
                   exists c, v = JInt c /\ 0 <= c <= 0xFFFFFF
  | obj_Separator _ _ _ =>
      dict_get d "spacing" = None \/ dict_get d "spacing" = Some (JInt 2)
  | _ => True
  end.
Proof.
  intros Hb E. pose proof (built_constraint o Hb) as Hc.
  destruct o; try exact I; simpl in Hc.
  - destruct Hc as [Hn [Hcl _]].
    destruct (array_at_child_array (obj_Section components accessory id)
                "components" components d eq_refl E)
      as [ds [Eds Harr]].
    exists (map JObj ds). split; [assumption|].
    destruct (collect_map_nth to_dict components ds Eds) as [Hlen _].
    split; [rewrite length_map; unfold dict in *; lia|].
    intros j Hj. apply in_map_iff in Hj. destruct Hj as [dj [<- Hdj]].
    destruct (collect_map_In to_dict components ds Eds dj Hdj)
      as [x [Hx Ex]].
    specialize (Hcl x Hx). destruct x; try discriminate Hcl.
    simpl in Ex. inversion Ex; subst. destruct id0; reflexivity.
  - apply built_inv in Hb. contradiction.
  - destruct Hc as [Hn Hcl].
    destruct (array_at_child_array (obj_MediaGallery items id)
                "items" items d eq_refl E)
      as [ds [Eds Harr]].
    exists (map JObj ds). split; [assumption|].
    destruct (collect_map_nth to_dict items ds Eds) as [Hlen _].
    split; [rewrite length_map; unfold dict in *; lia|].
    intros j Hj. apply in_map_iff in Hj. destruct Hj as [dj [<- Hdj]].
    destruct (collect_map_In to_dict items ds Eds dj Hdj) as [x [Hx Ex]].
    exists dj. split; [reflexivity|].
    specialize (Hcl x Hx).
    pose proof (payload_matches_declaration x dj Ex) as Hm.
    rewrite Hcl in Hm. now apply Hm.
  - simpl in E. inversion E; subst. unfold Separator_to_dict.
    destruct Hc as [-> | ->]; destruct divider, id; simpl; auto.
Qed.

Lemma built_payload_bounds_witness :
  exists js,
    array_at [("type", JInt 9);
              ("components",
               JArr [JObj [("type", JInt 10); ("content", JStr "A")]])]
             "components" = Some js /\
    (1 <= List.length js <= 3)%nat /\
    forall j, In j js -> tag_of j = Some 10.
Proof.
  apply (built_payload_bounds section_A).
  - apply constructed_built. reflexivity.
  - reflexivity.
Defined.


(** ** Which error is raised *)

Lemma forallb_false {A : Type} (f : A -> bool) (l : list A) :
  forallb f l = false <-> exists x, In x l /\ f x = false.
Proof.
  induction l as [|x l IH]; simpl.
  - split; [discriminate|intros [x [[] _]]].
  - rewrite andb_false_iff, IH. split.
    + intros [H|[y [Hy Hf]]]; [exists x; auto|exists y; auto].
    + intros [y [[<-|Hy] Hf]]; [now left|right; now exists y].
Qed.

Lemma not_isinstance (o : PyObj) (classes : list PyClass) :
  isinstance o classes = false <-> ~ In (class_of o) classes.
Proof.
  rewrite <- isinstance_In. destruct (isinstance o classes); split;
    intros H; try reflexivity; try discriminate; try (intros E; discriminate E).
  exfalso. now apply H.
Qed.

Lemma some_not_isinstance (l : list PyObj) (classes : list PyClass) :
  negb (forallb (fun x => isinstance x classes) l) = true <->
  exists x, In x l /\ ~ In (class_of x) classes.
Proof.
  rewrite negb_true_iff, forallb_false. split.
  - intros [x [Hx Hf]]. exists x. split; [assumption|].
    now apply not_isinstance.
  - intros [x [Hx Hf]]. exists x. split; [assumption|].
    now apply not_isinstance.
Qed.

(** Evaluate the error raised without unfolding the condition it is
    compared with. *)
Ltac eval_raised :=
  match goal with
  | |- _ <-> ?R =>
      let rhs := fresh "rhs" in
      set (rhs := R); simpl; subst rhs
  end.

(** X13: which validation error each constructor can raise, and when.
    Section checks the count first, then the classes: it raises the type
    error exactly when it has 1 to 3 components and one of them is not a
    TextDisplay or the accessory is neither a Button nor a Thumbnail, and
    never a range error.  MediaGallery never raises a range error,
    Separator never an arity or type error.  Container raises the arity
    error exactly when it has no components, and never a type or range
    error: its whitelist and accent_color checks are not reached. *)
Theorem error_precedence (components : list PyObj)
    (accessory : option PyObj) (accent_color : option Z)
    (spoiler divider : bool) (spacing : Z) (id : option Z) :
  let n := List.length components in
  let bad_element classes :=
    exists x, In x components /\ ~ In (class_of x) classes in
  (raised (Section_init components accessory id)
     = Some TypeMismatchError <->
   (1 <= n <= 3)%nat /\
   (bad_element [cls_TextDisplay] \/
    exists a, accessory = Some a /\
              ~ In (class_of a) [cls_Button; cls_Thumbnail])) /\
  raised (Section_init components accessory id) <> Some RangeError /\
  raised (MediaGallery_init components id) <> Some RangeError /\
  raised (Separator_init divider spacing id) <> Some ArityError /\
  raised (Separator_init divider spacing id) <> Some TypeMismatchError /\
  (raised (Container_init components accent_color spoiler id)
     = Some ArityError <-> n = 0%nat) /\
  raised (Container_init components accent_color spoiler id)
    <> Some TypeMismatchError /\
  raised (Container_init components accent_color spoiler id)
    <> Some RangeError.
Proof.
  intros n bad_element. subst n bad_element. cbv beta.
  rewrite !Container_init_outcome.
  split; [|split; [|split; [|split; [|split; [|split; [|split]]]]]].
  - unfold Section_init.
    destruct (is_empty components) eqn:Ee.
    { apply is_empty_length in Ee. eval_raised. split; [discriminate|].
      intros [H _]. lia. }
    destruct (len_gt components 3) eqn:El.
    { apply len_gt_length in El. eval_raised. split; [discriminate|].
      intros [H _]. lia. }
    assert (H13 : (1 <= List.length components <= 3)%nat).
    { split; [destruct components; [discriminate Ee|simpl; lia]|].
      apply Nat.ltb_ge. exact El. }
    destruct (negb (forallb _ components)) eqn:Ef.
    { eval_raised. split; [|reflexivity]. intros _. split; [assumption|].
      left. now apply some_not_isinstance. }
    assert (Hn : ~ exists x, In x components /\
                             ~ In (class_of x) [cls_TextDisplay]).
    { intros H. apply some_not_isinstance in H. congruence. }
    destruct accessory as [a|].
    + destruct (negb (isinstance a [cls_Button; cls_Thumbnail])) eqn:Ea;
        eval_raised.
      * split; [|reflexivity]. intros _. split; [assumption|]. right.
        exists a. split; [reflexivity|].
        apply negb_true_iff in Ea. now apply not_isinstance.
      * split; [discriminate|]. intros [_ [H|[a' [E Ha]]]];
          [contradiction|].
        inversion E; subst a'. apply negb_false_iff in Ea.
        apply isinstance_In in Ea. contradiction.
    + eval_raised. split; [discriminate|]. intros [_ [H|[a' [E _]]]];
        [contradiction|discriminate E].
  - unfold Section_init.
    repeat match goal with
           | |- context [if ?b then _ else _] => destruct b
           end; simpl; discriminate.
  - unfold MediaGallery_init.
    repeat match goal with
           | |- context [if ?b then _ else _] => destruct b
           end; simpl; discriminate.
  - unfold Separator_init.
    destruct (negb _); simpl; discriminate.
  - unfold Separator_init.
    destruct (negb _); simpl; discriminate.
  - destruct components; simpl; split; intros H; try reflexivity;
      discriminate H.
  - destruct (is_empty components); simpl; discriminate.
  - destruct (is_empty components); simpl; discriminate.
Qed.

Lemma error_precedence_witness :
  raised (Section_init [obj_TextDisplay "a" None]
                       (Some (obj_File "f" false None)) None)
    = Some TypeMismatchError.
Proof.
  destruct (error_precedence [obj_TextDisplay "a" None]
              (Some (obj_File "f" false None)) None false true 1 None)
    as ([_ H] & _).
  apply H. split; [simpl; lia|]. right.
  exists (obj_File "f" false None). split; [reflexivity|].
  simpl. intuition discriminate.
Defined.

(** ** Payloads and their declarations *)

(** X14: for MediaGalleryItem, MediaGallery, File, Separator and
    Container the serializer follows the payload declaration of the types
    module: the tag is the declared one, every required key is present and
    no undeclared key appears; and what sits under [media] or [file] is an
    [UnfurledMediaItem], an object with the single key [url] holding a
    string. *)
Theorem serialized_kinds_match_declarations (o : PyObj) (d : dict) :
  to_dict o = Ok d ->
  declared_as_serialized (class_of o) = true ->
  match schema_of (class_of o) with
  | Some t => conforms t d = true
  | None => True
  end /\
  (forall sub,
      dict_get d "media" = Some sub \/ dict_get d "file" = Some sub ->
      exists u, sub = JObj [("url", JStr u)] /\
                conforms UnfurledMediaItem [("url", JStr u)] = true).
Proof.
  intros E Hc. split; [now apply payload_matches_declaration|].
  intros sub H.
  destruct o; simpl in Hc; try discriminate Hc;
    payload_cases E; revert H; field_cases;
    intros [H|H]; simpl in H; try discriminate H;
    inversion H; subst; eexists; split; reflexivity.
Qed.

Lemma serialized_kinds_match_declarations_witness :
  conforms FileComponent (File_to_dict "a.pdf" true None) = true /\
  (forall sub,
      dict_get (File_to_dict "a.pdf" true None) "media" = Some sub \/
      dict_get (File_to_dict "a.pdf" true None) "file" = Some sub ->
      exists u, sub = JObj [("url", JStr u)] /\
                conforms UnfurledMediaItem [("url", JStr u)] = true).
Proof.
  apply (serialized_kinds_match_declarations (obj_File "a.pdf" true None));
    reflexivity.
Defined.
